(** * freestor: metadata synthesis and upload reconciliation

    A shallow embedding of [freestor.py], the script that uploads JSTOR
    articles to the Internet Archive, and the properties of its parser
    ([parse_article_xml]), its metadata synthesizer ([make_ia_metadata]),
    its reconciler ([modify_ia_metadata]) and its submission loop.

    Conventions of the embedding.
    - Python text is a [string], a sequence of 8-bit characters, as a
      Python 2 [str] is.  The [str]/[unicode] distinction and the codec
      errors that come with it are outside the model: [v.encode('utf-8')]
      and [unicode(s)] on a string are the identity.
    - A Python [dict] with string keys is a [gmap string _].
    - Code that can raise returns a [result]; the exception is named. *)

From Stdlib Require Import ZArith Ascii String DecimalString.
From stdpp Require Import gmap strings list fin_maps.

Local Open Scope string_scope.
Local Open Scope Z_scope.

(** ** Exceptions and the error monad *)

Inductive exn : Type :=
  | AttributeError
  | KeyError
  | TypeError
  | NameError
  | IndexError
  | KeyboardInterrupt.

Inductive result (A : Type) : Type :=
  | OK (a : A)
  | Raise (e : exn).
Arguments OK {A} a.
Arguments Raise {A} e.

Definition rbind {A B : Type} (m : result A) (f : A → result B) : result B :=
  match m with
  | OK a => f a
  | Raise e => Raise e
  end.

Notation "'do' x <- m ; k" := (rbind m (fun x => k))
  (at level 10, x name, m at level 99, k at level 200).

Definition raises {A : Type} (m : result A) : Prop := ∃ e, m = Raise e.

Definition from_option {A : Type} (e : exn) (o : option A) : result A :=
  match o with
  | Some a => OK a
  | None => Raise e
  end.

(** ** Python string primitives *)

Module Py.

Definition chr (n : nat) : ascii := ascii_of_nat n.
Definition dash : ascii := chr 45.
Definition slash : ascii := chr 47.
Definition newline : ascii := chr 10.

(** [c in s] for a one-character [c]. *)
Fixpoint contains (c : ascii) (s : string) : bool :=
  match s with
  | EmptyString => false
  | String a r => if Ascii.eqb a c then true else contains c r
  end.

(** [s.split(c)] for a one-character separator: never an empty list. *)
Fixpoint split (c : ascii) (s : string) : list string :=
  match s with
  | EmptyString => [EmptyString]
  | String a r =>
      if Ascii.eqb a c then EmptyString :: split c r
      else match split c r with
           | h :: t => String a h :: t
           | [] => [String a EmptyString]
           end
  end.

(** [l[-1]] on a list of strings that is known not to be empty. *)
Definition last_part (l : list string) : string := List.last l EmptyString.

Fixpoint lstrip (p : ascii → bool) (s : string) : string :=
  match s with
  | EmptyString => EmptyString
  | String a r => if p a then lstrip p r else s
  end.

Fixpoint rstrip (p : ascii → bool) (s : string) : string :=
  match s with
  | EmptyString => EmptyString
  | String a r =>
      match rstrip p r with
      | EmptyString => if p a then EmptyString else String a EmptyString
      | r' => String a r'
      end
  end.

Definition strip_chars (p : ascii → bool) (s : string) : string :=
  rstrip p (lstrip p s).

(** The characters [str.strip()] removes: space, \t, \n, \v, \f, \r. *)
Definition is_space (a : ascii) : bool :=
  let n := nat_of_ascii a in
  (n =? 32)%nat || ((9 <=? n)%nat && (n <=? 13)%nat).

(** The characters [s.strip(' ,')] removes. *)
Definition is_space_or_comma (a : ascii) : bool :=
  let n := nat_of_ascii a in (n =? 32)%nat || (n =? 44)%nat.

Definition strip (s : string) : string := strip_chars is_space s.
Definition strip_sc (s : string) : string := strip_chars is_space_or_comma s.

(** [s.replace('\n', '')]. *)
Fixpoint remove_newlines (s : string) : string :=
  match s with
  | EmptyString => EmptyString
  | String a r =>
      if Ascii.eqb a newline then remove_newlines r
      else String a (remove_newlines r)
  end.

(** [int(s)]: surrounding whitespace, an optional sign, then one or more
    decimal digits; anything else is a [ValueError], here [None]. *)
Definition digit (a : ascii) : option Z :=
  let n := nat_of_ascii a in
  if (48 <=? n)%nat && (n <=? 57)%nat then Some (Z.of_nat (n - 48)) else None.

Fixpoint digits (acc : Z) (s : string) : option Z :=
  match s with
  | EmptyString => Some acc
  | String a r =>
      match digit a with
      | Some d => digits (10 * acc + d) r
      | None => None
      end
  end.

Definition unsigned (s : string) : option Z :=
  match s with
  | EmptyString => None
  | _ => digits 0 s
  end.

Definition int (s : string) : option Z :=
  match strip s with
  | String a r =>
      if (nat_of_ascii a =? 45)%nat then Z.opp <$> unsigned r
      else if (nat_of_ascii a =? 43)%nat then unsigned r
      else unsigned (String a r)
  | EmptyString => None
  end.

(** [str(n)] for an integer. *)
Definition str_of_int (n : Z) : string := NilZero.string_of_int (Z.to_int n).

End Py.

(** ** Values

    What the parser produces for a field ([xval]) is a string or a list
    whose entries ([item]) are strings and one-key dicts; a metadata value
    ([pval]) may also be [None]. *)

Inductive item : Type :=
  | IStr (s : string)
  | IDict (k v : string).

Inductive xval : Type :=
  | XStr (s : string)
  | XList (l : list item).

Inductive pval : Type :=
  | PNone
  | PStr (s : string)
  | PList (l : list item).

#[global] Instance item_eq_dec : EqDecision item.
Proof. solve_decision. Defined.
#[global] Instance xval_eq_dec : EqDecision xval.
Proof. solve_decision. Defined.
#[global] Instance pval_eq_dec : EqDecision pval.
Proof. solve_decision. Defined.

(** Python truthiness, as [if v] and the final [if v] filter use it. *)
Definition truthy (v : pval) : bool :=
  match v with
  | PNone => false
  | PStr EmptyString => false
  | PStr _ => true
  | PList [] => false
  | PList _ => true
  end.

Definition of_xval (v : xval) : pval :=
  match v with
  | XStr s => PStr s
  | XList l => PList l
  end.

(** What the final filter [if v] leaves of an entry. *)
Definition keep (o : option pval) : option pval :=
  match o with
  | Some v => if truthy v then Some v else None
  | None => None
  end.

(** [d.get(k)]: the value, or [None]. *)
Definition get (d : gmap string xval) (k : string) : pval :=
  match d !! k with
  | Some v => of_xval v
  | None => PNone
  end.

(** [d[k]]: the value, or [KeyError]. *)
Definition getitem {V : Type} (d : gmap string V) (k : string) : result V :=
  from_option KeyError (d !! k).

(** [dict(pairs)]: a later pair overrides an earlier one with its key. *)
Definition py_dict {V : Type} (pairs : list (string * V)) : gmap string V :=
  foldl (λ m kv, <[kv.1 := kv.2]> m) ∅ pairs.

(** ** [repr] and [format] of values *)

Module Repr.

Definition quote1 : ascii := Py.chr 39.
Definition quote2 : ascii := Py.chr 34.
Definition backslash : ascii := Py.chr 92.

Definition hex_digit (n : nat) : ascii :=
  if (n <? 10)%nat then Py.chr (48 + n) else Py.chr (87 + n).

Definition escape (q a : ascii) : string :=
  let n := nat_of_ascii a in
  if Ascii.eqb a q || Ascii.eqb a backslash then String backslash (String a EmptyString)
  else if (n =? 9)%nat then String backslash "t"
  else if (n =? 10)%nat then String backslash "n"
  else if (n =? 13)%nat then String backslash "r"
  else if (n <? 32)%nat || (127 <=? n)%nat then
    String backslash
      (String "x" (String (hex_digit (n / 16)) (String (hex_digit (n mod 16)) EmptyString)))
  else String a EmptyString.

Fixpoint escape_all (q : ascii) (s : string) : string :=
  match s with
  | EmptyString => EmptyString
  | String a r => escape q a +:+ escape_all q r
  end.

(** [repr(s)] of a [str]: single quotes, unless [s] has a single quote
    and no double quote. *)
Definition of_str (s : string) : string :=
  let q := if Py.contains quote1 s && negb (Py.contains quote2 s)
           then quote2 else quote1 in
  String q (escape_all q s) +:+ String q EmptyString.

Definition of_item (i : item) : string :=
  match i with
  | IStr s => of_str s
  | IDict k v => "{" +:+ of_str k +:+ ": " +:+ of_str v +:+ "}"
  end.

Fixpoint join (l : list string) : string :=
  match l with
  | [] => EmptyString
  | [x] => x
  | x :: r => x +:+ ", " +:+ join r
  end.

Definition of_list (l : list item) : string :=
  "[" +:+ join (of_item <$> l) +:+ "]".

End Repr.

(** ['{0}'.format(v)], and also [unicode(v)]. *)
Definition format (v : pval) : string :=
  match v with
  | PNone => "None"
  | PStr s => s
  | PList l => Repr.of_list l
  end.

(** ** Monadic list traversals *)

Fixpoint mapM {A B : Type} (f : A → result B) (l : list A) : result (list B) :=
  match l with
  | [] => OK []
  | x :: r => do y <- f x; do ys <- mapM f r; OK (y :: ys)
  end.

Fixpoint foldM {A S : Type} (f : S → A → result S) (s : S) (l : list A) : result S :=
  match l with
  | [] => OK s
  | x :: r => do s' <- f s x; foldM f s' r
  end.

(** ** The bibliographic record parser: [parse_article_xml]

    An lxml element, as far as the parser reads it: its tag, its [text]
    ([None] when the element has none) and its child elements. *)

#[warnings="-register-all"]
Inductive element : Type :=
  | Element (tag : string) (text : option string) (children : list element).

Definition tag (e : element) : string :=
  match e with Element t _ _ => t end.

Definition text (e : element) : option string :=
  match e with Element _ t _ => t end.

Definition getchildren (e : element) : list element :=
  match e with Element _ _ c => c end.

(** [e.text.strip()]: an [AttributeError] when [e.text] is [None]. *)
Definition text_strip (e : element) : result string :=
  match text e with
  | Some t => OK (Py.strip t)
  | None => Raise AttributeError
  end.

(** The body of [for child in c_elements]: what one child appends. *)
Definition child_entries (child : element) : result (list item) :=
  let own :=
    match text child with
    | Some (String a r) =>
        if decide (Py.strip (String a r) = EmptyString) then []
        else [IStr (Py.strip (String a r))]
    | _ => []
    end in
  do subs <- mapM (λ x, do t <- text_strip x; OK (IDict (tag x) t)) (getchildren child);
  OK (own ++ subs)%list.

(** The value stored under [element.tag] by one round of the main loop. *)
Definition element_value (e : element) : result xval :=
  match getchildren e with
  | [] => do t <- text_strip e; OK (XStr t)
  | c_elements =>
      do entries <- mapM child_entries c_elements;
      OK (XList (concat entries))
  end.

Definition parse_step (md : gmap string xval) (e : element) : result (gmap string xval) :=
  do v <- element_value e; OK (<[tag e := v]> md).

(** [root] is [etree.parse(open(xml_file)).getroot()]. *)
Definition parse_article_xml (root : element) : result (gmap string xval) :=
  let xml := getchildren root in
  let xml_md := List.filter (λ e, negb (String.eqb (tag e) "pages")) xml in
  foldM parse_step ∅ xml_md.

(** *** The parser's result, in the words of its description

    The entries one child of an element contributes: its trimmed text
    when that is not empty, then one [{tag: trimmed text}] per grandchild. *)
Definition trimmed_text (e : element) : string :=
  Py.strip (default EmptyString (text e)).

Definition child_sequence (child : element) : list item :=
  ((if decide (trimmed_text child = EmptyString) then [] else [IStr (trimmed_text child)])
   ++ map (λ x, IDict (tag x) (trimmed_text x)) (getchildren child))%list.

(** [e] is the last child of [root] that carries its tag. *)
Definition last_with_tag (root e : element) : Prop :=
  ∃ before after,
    getchildren root = (before ++ e :: after)%list ∧
    Forall (λ e', tag e' ≠ tag e) after.

(** ** The metadata synthesizer: [make_ia_metadata] *)

(** [v.split(c)]: only a string has the method. *)
Definition split_method (c : ascii) (v : pval) : result (list string) :=
  match v with
  | PStr s => OK (Py.split c s)
  | _ => Raise AttributeError
  end.

(** ['-' in v]: substring test on a string, membership on a list, and a
    [TypeError] on [None]. *)
Definition contains_dash (v : pval) : result bool :=
  match v with
  | PNone => Raise TypeError
  | PStr s => OK (Py.contains Py.dash s)
  | PList l => OK (bool_decide (IStr "-" ∈ l))
  end.

(** Lines 68-90, the [dict(...)] literal; its keyword arguments are
    evaluated in the order written. *)
Definition initial_md (xml_md : gmap string xval) : result (gmap string pval) :=
  do id_parts <- split_method Py.slash (get xml_md "id");
  do journalabbrv <- getitem xml_md "journalabbrv";
  OK (py_dict
        [ ("identifier", PStr ("jstor-" +:+ Py.last_part id_parts));
          ("mediatype", PStr "texts");
          ("publisher", get xml_md "journaltitle");
          ("contributor", PStr "JSTOR");
          ("collection",
            PList [ IStr ("jstor_" +:+ format (of_xval journalabbrv));
                    IStr "jstor_ejc";
                    IStr "additional_collections" ]);
          ("date", get xml_md "pubdate");
          ("volume", get xml_md "volume");
          ("pagerange", get xml_md "pagerange");
          ("issn", get xml_md "issn");
          ("source", PStr ("http://www.jstor.org/stable/" +:+ format (get xml_md "id")));
          ("article_type", get xml_md "type");
          ("journaltitle", get xml_md "journaltitle");
          ("journalabbrv", of_xval journalabbrv) ]).

(** The two literal templates of the placeholder title. *)
Definition untitled_page (journaltitle date pagerange : pval) : string :=
  "[untitled] " +:+ format journaltitle +:+ " (" +:+ format date +:+
  "), page " +:+ format pagerange.

Definition untitled_pages (journaltitle date pagerange : pval) : string :=
  "[untitled] " +:+ format journaltitle +:+ ", (" +:+ format date +:+
  "), pages " +:+ format pagerange.

(** Lines 92-103. *)
Definition set_title (xml_md : gmap string xval) (md : gmap string pval)
  : result (gmap string pval) :=
  match xml_md !! "title" with
  | None =>
      do pagerange <- getitem md "pagerange";
      do has_dash <- contains_dash pagerange;
      do journaltitle <- getitem md "journaltitle";
      do date <- getitem md "date";
      if negb has_dash
      then OK (<["title" := PStr (untitled_page journaltitle date pagerange)]> md)
      else OK (<["title" := PStr (untitled_pages journaltitle date pagerange)]> md)
  | Some title => OK (<["title" := of_xval title]> md)
  end.

(** The pairs of [for d in authors for (k,v) in d.items()]: only a dict
    has [items]; a string is iterated character by character. *)
Definition author_items (authors : pval) : result (list (string * string)) :=
  match authors with
  | PNone => Raise TypeError
  | PStr EmptyString => OK []
  | PStr (String _ _) => Raise AttributeError
  | PList l =>
      mapM (λ d, match d with
                 | IDict k v => OK (k, v)
                 | IStr _ => Raise AttributeError
                 end) l
  end.

(** Line 108, [dict((k, v.encode('utf-8')) for d in authors for (k,v) in
    d.items())]: the subfields of all authors in one dict. *)
Definition make_auth_md (authors : pval) : result (gmap string string) :=
  do pairs <- author_items authors;
  OK (py_dict pairs).

(** [if auth_md.get(k)]: present and not empty. *)
Definition get_nonempty (auth_md : gmap string string) (k : string) : option string :=
  match auth_md !! k with
  | Some (String a r) => Some (String a r)
  | _ => None
  end.

(** Lines 105-120. *)
Definition set_creator (xml_md : gmap string xval) (md : gmap string pval)
  : result (gmap string pval) :=
  let authors := get xml_md "authors" in
  if truthy authors then
    do auth_md <- make_auth_md authors;
    match auth_md !! "givennames" with
    | Some givennames =>
        do surname <- getitem auth_md "surname";
        OK (<["creator" :=
                PStr (Py.strip_sc surname +:+ ", " +:+ Py.strip_sc givennames)]> md)
    | None =>
        match get_nonempty auth_md "stringname" with
        | Some stringname => OK (<["creator" := PStr (Py.strip_sc stringname)]> md)
        | None =>
            match get_nonempty auth_md "surname" with
            | Some surname => OK (<["creator" := PStr (Py.strip_sc surname)]> md)
            | None => Raise NameError
            end
        end
    end
  else OK (<["creator" := PNone]> md).

(** [languages[0].strip()]. *)
Definition first_strip (languages : pval) : result string :=
  match languages with
  | PNone => Raise TypeError
  | PStr EmptyString => Raise IndexError
  | PStr (String a _) => OK (Py.strip (String a EmptyString))
  | PList [] => Raise IndexError
  | PList (IStr s :: _) => OK (Py.strip s)
  | PList (IDict _ _ :: _) => Raise AttributeError
  end.

(** Lines 122-125. *)
Definition set_language (xml_md : gmap string xval) (md : gmap string pval)
  : result (gmap string pval) :=
  let languages := get xml_md "languages" in
  if truthy languages then
    do language <- first_strip languages;
    OK (<["language" := PStr language]> md)
  else OK md.

(** Lines 127-139.  [external_ids.items()] is [map_to_list]: the order in
    which CPython walks the dict is not fixed by the source, and no
    property below depends on it. *)
Definition external_ids (xml_md : gmap string xval) : gmap string pval :=
  py_dict [ ("headid", get xml_md "headid");
            ("journalid", get xml_md "journalid");
            ("issueid", get xml_md "issueid");
            ("articleid", get xml_md "id") ].

Definition set_external_identifier (xml_md : gmap string xval) (md : gmap string pval)
  : gmap string pval :=
  let ids :=
    flat_map (λ kv : string * pval,
                if truthy kv.2
                then [IStr ("urn:jstor-" +:+ kv.1 +:+ ":" +:+ format kv.2)]
                else [])
             (map_to_list (external_ids xml_md)) in
  <["external-identifier" := PList ids]> md.

(** The body of the [try]: [None] stands for the [ValueError] of [int],
    the one exception the [except] clause catches. *)
Definition count_images (pagerange : list string) : result (option string) :=
  match pagerange with
  | [] => Raise IndexError
  | [_] => OK (Some "2")
  | p0 :: p1 :: _ =>
      match Py.int p0, Py.int p1 with
      | Some last, Some first => OK (Some (Py.str_of_int ((last - first) + 2)))
      | _, _ => OK None
      end
  end.

(** Lines 141-152. *)
Definition set_imagecount (xml_md : gmap string xval) (md : gmap string pval)
  : result (gmap string pval) :=
  if truthy (get xml_md "pagerange") then
    do pagerange <- getitem xml_md "pagerange";
    do parts <- split_method Py.dash (of_xval pagerange);
    do imagecount <- count_images (rev parts);
    match imagecount with
    | Some n => OK (<["imagecount" := PStr n]> md)
    | None => OK (<["imagecount" := PNone]> md)
    end
  else OK md.

(** Lines 154-160.  [render] is [jinja2.Template(open('description.html')
    .read()).render], applied to the metadata built so far. *)
Definition finish (render : gmap string pval → string) (md : gmap string pval)
  : result (gmap string pval) :=
  do title <- getitem md "title";
  let md := <["title" := PStr (format title)]> md in
  let md := <["description" := PStr (Py.strip (Py.remove_newlines (render md)))]> md in
  OK (filter (λ kv : string * pval, truthy kv.2 = true) md).

Definition make_ia_metadata (render : gmap string pval → string)
    (file_md : gmap string string) (xml_md : gmap string xval)
  : result (gmap string pval) :=
  do md <- initial_md xml_md;
  do md <- set_title xml_md md;
  do md <- set_creator xml_md md;
  do md <- set_language xml_md md;
  do md <- set_imagecount xml_md (set_external_identifier xml_md md);
  finish render md.

(** ** The metadata reconciler: [modify_ia_metadata] *)

(** A value of a metadata document as the Metadata API serves it: a
    string, or a list of strings. *)
Inductive json : Type :=
  | JStr (s : string)
  | JArr (l : list string).

#[global] Instance json_eq_dec : EqDecision json.
Proof. solve_decision. Defined.

(** One operation of a [jsonpatch] patch: a dict with the keys ['op'] and
    ['path'], and ['value'] unless the operation is a removal. *)
Record operation : Type := Operation {
  op : string;
  path : string;
  value : option json
}.

Module JsonPatch.

(** Modelled from the spec: the path of an operation, a JSON pointer;
    [jsonpatch] builds it as ['/'.join(path + [key])] from a path list
    that starts as [['']]. *)
Definition join (path : string) (key : string) : string := path +:+ "/" +:+ key.

Definition index (i : nat) : string := NilZero.string_of_uint (Nat.to_uint i).

Definition replace (path : string) (other : json) : operation :=
  Operation "replace" path (Some other).

Definition add (path : string) (v : json) : operation :=
  Operation "add" path (Some v).

Definition remove (path : string) : operation :=
  Operation "remove" path None.

(** Modelled from the spec: the list diff of [jsonpatch.make_patch].
    The common prefix of the two lists is compared index by index; then
    come the additions at the end of [dst], or the removals from the end
    of [src], last index first. *)
Fixpoint compare_list (path : string) (idx : nat) (src dst : list string)
  : list operation :=
  match src, dst with
  | [], [] => []
  | [], _ :: _ => imap (λ i v, add (join path (index (idx + i))) (JStr v)) dst
  | _ :: _, [] => rev (imap (λ i _, remove (join path (index (idx + i)))) src)
  | v :: src', w :: dst' =>
      (if decide (v = w) then [] else [replace (join path (index idx)) (JStr w)])
      ++ compare_list path (S idx) src' dst'
  end%list.

(** Modelled from the spec: the value diff of [jsonpatch.make_patch].
    Equal values give nothing, two lists are compared as lists, anything
    else is replaced. *)
Definition compare_values (path : string) (v other : json) : list operation :=
  if decide (v = other) then []
  else match v, other with
       | JArr src, JArr dst => compare_list path 0 src dst
       | _, _ => [replace path other]
       end.

(** Modelled from the spec: the mapping diff of [jsonpatch.make_patch],
    first over the keys of [src], then over the keys of [dst]. *)
Definition compare_dict (path : string) (src dst : gmap string json)
  : list operation :=
  (flat_map (λ kv : string * json,
               match dst !! kv.1 with
               | None => [remove (join path kv.1)]
               | Some other => compare_values (join path kv.1) kv.2 other
               end)
            (map_to_list src)
   ++
   flat_map (λ kv : string * json,
               match src !! kv.1 with
               | None => [add (join path kv.1) kv.2]
               | Some _ => []
               end)
            (map_to_list dst))%list.

(** Modelled from the spec: [jsonpatch.make_patch], the "standard
    JSON-diff-to-patch algorithm" of the third-party library the script
    imports, whose code is not in this repository.  The model is that
    diff on flat documents: a key of [src] missing from [dst] is removed,
    a key of both is compared ([replace] when the values differ, index by
    index when both are lists), a key of [dst] missing from [src] is
    added.  Of an operation the library gives ['op'] and ['path'], and
    ['value'] for an addition or a replacement; a removal has no value. *)
Definition make_patch (src dst : gmap string json) : list operation :=
  compare_dict EmptyString src dst.

End JsonPatch.

(** A flattened operation, [{p['op']: p['path'], 'value': p['value']}]. *)
Definition flatten (p : operation) : result (gmap string json) :=
  do v <- from_option KeyError (value p);
  OK (py_dict [ (op p, JStr (path p)); ("value", v) ]).

Inductive request : Type :=
  | Get (url : string)
  | Patch (url : string) (params cookies : gmap string string).

(** What the function reads and writes outside its arguments. *)
Record world : Type := World {
  environ : gmap string string;
  remote : string → gmap string (gmap string json);
  sent : list request
}.

Definition send (r : request) (w : world) : world :=
  World (environ w) (remote w) (sent w ++ [r]).

Definition no_changes : string := "No changes made to metadata.".

Section Reconciler.

(** [json.dumps] on a list of flattened operations, and the body of the
    response to the patch request. *)
Variable dumps : list (gmap string json) → string.
Variable content : request → string.

(** The part of [modify_ia_metadata] up to [json_patch]. *)
Definition computed_patch (src metadata : gmap string json) : list operation :=
  let dest := py_dict (map_to_list src ++ map_to_list metadata) in
  JsonPatch.make_patch src dest.

Definition modify_ia_metadata (identifier : string) (metadata : gmap string json)
    (target : string) (w : world) : result string * world :=
  match getitem (environ w) "LOGGED_IN_SIG" with
  | Raise e => (Raise e, w)
  | OK sig =>
      match getitem (environ w) "LOGGED_IN_USER" with
      | Raise e => (Raise e, w)
      | OK user =>
          let log_in_cookies :=
            py_dict [ ("logged-in-sig", sig); ("logged-in-user", user) ] in
          let url := "http://archive.org/metadata/" +:+ identifier in
          let w := send (Get url) w in
          let src := default ∅ (remote w url !! target) in
          let json_patch := computed_patch src metadata in
          match mapM flatten json_patch with
          | Raise e => (Raise e, w)
          | OK [] => (OK no_changes, w)
          | OK patch =>
              let params := py_dict [ ("-patch", dumps patch); ("-target", target) ] in
              let r := Patch url params log_in_cookies in
              (OK (content r), send r w)
          end
      end
  end.

End Reconciler.

(** ** The upload orchestrator: the submission loop of [__main__] *)

(** Where a [KeyboardInterrupt] reaches the main thread during one round
    of [for pdf in pdf_iterator(PDF_ROOT)]: in the iterator, which runs
    outside the [try]; or inside the [try], before [executor.submit] is
    called or between its return and [add_done_callback]. *)
Inductive interrupt : Type :=
  | NoInterrupt
  | InIterator
  | BeforeSubmit
  | AfterSubmit.

(** A unit of work handed to the executor, and whether [upload_status]
    was attached to its future. *)
Record unit_of_work : Type := UnitOfWork {
  article : gmap string string;
  has_callback : bool
}.

Record pool : Type := Pool {
  submitted : list unit_of_work;
  printed : list string
}.

Definition print (line : string) (st : pool) : pool :=
  Pool (submitted st) (printed st ++ [line]).

Definition submit (u : unit_of_work) (st : pool) : pool :=
  Pool (submitted st ++ [u]) (printed st).

(** [not pdf.get('xml_path')]. *)
Definition lacks_xml (pdf : gmap string string) : bool :=
  match pdf !! "xml_path" with
  | Some (String _ _) => false
  | _ => true
  end.

Definition format_opt (o : option string) : string :=
  match o with
  | Some s => s
  | None => "None"
  end.

Definition tab : string := String (Py.chr 9) EmptyString.

(** The body of the [try] of one round: the state it leaves, and the
    exception it raises when the interrupt lands in it.  A round for an
    article without XML submits nothing, so [AfterSubmit] does not occur
    in it. *)
Definition try_body (pdf : gmap string string) (i : interrupt) (st : pool)
  : pool * option exn :=
  match i with
  | BeforeSubmit => (st, Some KeyboardInterrupt)
  | _ =>
      if lacks_xml pdf
      then (print ("No XML file:" +:+ tab +:+ format_opt (pdf !! "articleid")) st, None)
      else match i with
           | AfterSubmit => (submit (UnitOfWork pdf false) st, Some KeyboardInterrupt)
           | _ => (submit (UnitOfWork pdf true) st, None)
           end
  end.

(** The [for] loop with its [try ... except KeyboardInterrupt: pass]
    inside: an exception of the body is dropped and the loop goes on; one
    raised by the iterator leaves the loop. *)
Fixpoint submission_loop (rounds : list (gmap string string * interrupt)) (st : pool)
  : pool * option exn :=
  match rounds with
  | [] => (st, None)
  | (pdf, InIterator) :: _ => (st, Some KeyboardInterrupt)
  | (pdf, i) :: rest => submission_loop rest (try_body pdf i st).1
  end.

(** ** Reading a result

    Whether a call returned, and the entry of the returned mapping under
    one key. *)
Definition returns {A : Type} (r : result A) : bool :=
  match r with
  | OK _ => true
  | Raise _ => false
  end.

Definition field {V : Type} (r : result (gmap string V)) (k : string)
  : result (option V) :=
  do md <- r; OK (md !! k).

(** ** Sample inputs *)

Module Sample.

(** A description template: the title in a paragraph, on a line of its
    own. *)
Definition template (md : gmap string pval) : string :=
  String Py.newline
    ("<p>" +:+ format (default PNone (md !! "title")) +:+ "</p>" +:+
     String Py.newline EmptyString).

Definition journal : list (string * xval) :=
  [ ("id", XStr "10.2307/123");
    ("journalabbrv", XStr "acmej");
    ("journaltitle", XStr "Acme Journal");
    ("pubdate", XStr "1920") ].

Definition no_pagerange : gmap string xval := py_dict journal.

Definition no_id : gmap string xval :=
  py_dict [ ("journalabbrv", XStr "acmej"); ("pagerange", XStr "5-9") ].

Definition range : gmap string xval :=
  py_dict (journal ++ [ ("pagerange", XStr "5-9") ]).

Definition page : gmap string xval :=
  py_dict (journal ++ [ ("pagerange", XStr "5") ]).

Definition unparsed : gmap string xval :=
  py_dict (journal ++ [ ("pagerange", XStr "foo-bar") ]).

Definition titled : gmap string xval :=
  py_dict (journal ++ [ ("title", XStr "On Coal") ]).

Definition empty_title : gmap string xval :=
  py_dict (journal ++ [ ("title", XStr EmptyString) ]).

Definition marked_title : gmap string xval :=
  py_dict (journal ++ [ ("title", XList [IStr "Coal"]) ]).

Definition with_authors (authors : list item) : gmap string xval :=
  py_dict (journal ++ [ ("title", XStr "On Coal"); ("authors", XList authors) ]).

Definition full_name : gmap string xval :=
  with_authors [ IDict "stringname" "J. Smith";
                 IDict "surname" " Smith,";
                 IDict "givennames" "John " ].

Definition string_name : gmap string xval :=
  with_authors [ IDict "stringname" " John Smith " ].

Definition surname_only : gmap string xval :=
  with_authors [ IDict "surname" "Smith," ].

Definition empty_stringname : gmap string xval :=
  with_authors [ IDict "stringname" EmptyString; IDict "surname" "Smith" ].

Definition givennames_only : gmap string xval :=
  with_authors [ IDict "givennames" "John"; IDict "stringname" "John Smith" ].

Definition no_subfields : gmap string xval :=
  with_authors [ IDict "suffix" "Jr." ].

(** XML documents. *)
Definition leaf (t s : string) : element := Element t (Some s) [].

Definition doc : element :=
  Element "article" None
    [ leaf "title" " On Coal ";
      Element "pages" None [ Element "page" None [] ];
      Element "authors" None
        [ Element "author" (Some " ")
            [ leaf "surname" "Smith"; leaf "givennames" " John" ] ];
      leaf "pagerange" "5-9" ].

(** A title with markup, [<title>On <i>Coal</i></title>]. *)
Definition doc_markup : element :=
  Element "article" None [ Element "title" (Some "On ") [ leaf "i" "Coal" ] ].

Definition doc_twice : element :=
  Element "article" None [ leaf "note" "x"; leaf "note" "y" ].

Definition doc_no_text : element :=
  Element "article" None [ leaf "id" "1"; Element "title" None [] ].

(** The remote service and the credentials. *)
Definition credentials : gmap string string :=
  py_dict [ ("LOGGED_IN_SIG", "sig"); ("LOGGED_IN_USER", "user") ].

Definition serving (metadata : gmap string json) : world :=
  World credentials (λ _, {[ "metadata" := metadata ]}) [].

Definition title_x : gmap string json := {[ "title" := JStr "X" ]}.
Definition title_y : gmap string json := {[ "title" := JStr "Y" ]}.
Definition two_collections : gmap string json := {[ "collection" := JArr ["a"; "b"] ]}.
Definition one_collection : gmap string json := {[ "collection" := JArr ["a"] ]}.

(** Articles as [pdf_iterator] yields them. *)
Definition pdf (n : string) : gmap string string :=
  py_dict [ ("pdf_path", "/2/data/jstor/ejc/jstor-early-journal-content/j/i/" +:+ n +:+ ".pdf");
            ("journal", "j");
            ("issueid", "i");
            ("articleid", "10.2307_" +:+ n);
            ("xml_path", "/2/data/jstor/bundle/articles/10.2307_" +:+ n +:+ ".xml") ].

(** A serializer and a response body for the samples. *)
Definition quoted (s : string) : string :=
  String Repr.quote2 (s +:+ String Repr.quote2 EmptyString).

Definition dumps_value (v : json) : string :=
  match v with
  | JStr s => quoted s
  | JArr l => "[" +:+ Repr.join (quoted <$> l) +:+ "]"
  end.

Definition dumps (patch : list (gmap string json)) : string :=
  "[" +:+
  Repr.join ((λ d : gmap string json,
                "{" +:+
                Repr.join ((λ kv : string * json,
                              quoted kv.1 +:+ ": " +:+ dumps_value kv.2)
                           <$> map_to_list d) +:+
                "}") <$> patch) +:+
  "]".

Definition content (r : request) : string :=
  match r with
  | Get _ => EmptyString
  | Patch _ _ _ => "{'success': true}"
  end.

End Sample.

(** ** The file iterator: [pdf_iterator] *)

Definition XML_ROOT : string := "/2/data/jstor/bundle/articles/".
Definition PDF_ROOT : string := "/2/data/jstor/ejc/jstor-early-journal-content/".

Definition dot : ascii := Py.chr 46.

Definition starts_with (c : ascii) (s : string) : bool :=
  match s with
  | EmptyString => false
  | String a _ => Ascii.eqb a c
  end.

Fixpoint ends_with (c : ascii) (s : string) : bool :=
  match s with
  | EmptyString => false
  | String a EmptyString => Ascii.eqb a c
  | String _ r => ends_with c r
  end.

(** [os.path.join(a, b)] of [posixpath]: an absolute [b] replaces [a];
    otherwise [b] is appended, after a ['/'] unless [a] is empty or ends
    with one. *)
Definition path_join (a b : string) : string :=
  if starts_with Py.slash b then b
  else if bool_decide (a = EmptyString) || ends_with Py.slash a then a +:+ b
  else a +:+ "/" +:+ b.

(** [l[-n:]]: the last [n] entries, or all of [l] when it is shorter. *)
Definition last_n {A : Type} (n : nat) (l : list A) : list A :=
  skipn (length l - n) l.

(** [l[i]] for [i >= 0], and [l[-1]]: an [IndexError] out of range. *)
Definition index_at {A : Type} (l : list A) (i : nat) : result A :=
  from_option IndexError (l !! i).

Definition index_last {A : Type} (l : list A) : result A :=
  from_option IndexError (last l).

(** Lines 28-39, the body of [for f in files] for the file at [path];
    [file_exists] is [os.path.exists]. *)
Definition article_of_path (file_exists : string → bool) (path : string)
  : result (gmap string string) :=
  let path_details := last_n 4 (Py.split Py.slash path) in
  do journal <- index_at path_details 0;
  do issueid <- index_at path_details 1;
  do name <- index_last path_details;
  do stem <- index_at (Py.split dot name) 0;
  let md := py_dict [ ("pdf_path", path);
                      ("journal", journal);
                      ("issueid", issueid);
                      ("articleid", "10.2307_" +:+ stem) ] in
  do articleid <- getitem md "articleid";
  let xml_path := path_join XML_ROOT (articleid +:+ ".xml") in
  if file_exists xml_path
  then OK (<["xml_path" := xml_path]> md)
  else OK md.

(** Lines 24-39.  [walk] is what [os.walk(directory)] produces, one
    [(root, directories, files)] per directory.  The generator yields the
    entries of the result in order; a [Raise] is an exception that leaves
    the generator at that point. *)
Definition pdf_iterator (file_exists : string → bool)
    (walk : list (string * list string * list string))
  : list (result (gmap string string)) :=
  flat_map (λ step : string * list string * list string,
              map (λ f, article_of_path file_exists (path_join step.1.1 f)) step.2)
           walk.

(** The rounds of the submission loop when no interrupt arrives. *)
Definition uninterrupted (articles : list (gmap string string))
  : list (gmap string string * interrupt) :=
  map (λ pdf, (pdf, NoInterrupt)) articles.

(** ** One unit of work: [upload_article] and [upload_status] *)

(** The call [item.upload(files, metadata, derive=True,
    ignore_bucket=False)] on [archive.Item(identifier)]. *)
Record upload_call : Type := UploadCall {
  item_identifier : pval;
  files : list string;
  upload_metadata : gmap string pval;
  derive : bool;
  ignore_bucket : bool
}.

Section Upload.

(** [render] as in [make_ia_metadata]; [read_xml path] is
    [etree.parse(open(path)).getroot()]; [item_upload] is the outcome of
    the upload call in the [archive] module, which is not part of this
    repository.  [item.identifier] is taken to be the identifier the
    item was made with. *)
Variable render : gmap string pval → string.
Variable read_xml : string → result element.
Variable item_upload : upload_call → result string.

(** [parse_article_xml(xml_file)], from the path. *)
Definition parse_article_xml_file (xml_file : string) : result (gmap string xval) :=
  do root <- read_xml xml_file;
  parse_article_xml root.

(** Lines 184-192, with the upload calls made so far as state. *)
Definition upload_article (article : gmap string string) (calls : list upload_call)
  : result (pval * string) * list upload_call :=
  let prepared :=
    do xml_path <- getitem article "xml_path";
    do xml_md <- parse_article_xml_file xml_path;
    do metadata <- make_ia_metadata render article xml_md;
    do pdf_path <- getitem article "pdf_path";
    do xml_path' <- getitem article "xml_path";
    do identifier <- getitem metadata "identifier";
    OK (UploadCall identifier [pdf_path; xml_path'] metadata true false) in
  match prepared with
  | Raise e => (Raise e, calls)
  | OK call =>
      (do upload_status <- item_upload call; OK (item_identifier call, upload_status),
       (calls ++ [call])%list)
  end.

(** Lines 194-196: [future.result()] raises what the unit raised. *)
Definition upload_status (future : result (pval * string)) (printed : list string)
  : result unit * list string :=
  match future with
  | Raise e => (Raise e, printed)
  | OK result => (OK tt, (printed ++ ["Uploaded:" +:+ tab +:+ format result.1])%list)
  end.

End Upload.

(** ** What the parser reads of a document

    A value is trimmed when [strip] leaves it as it is. *)
Definition trimmed (s : string) : Prop := Py.strip s = s.

Definition trimmed_item (i : item) : Prop :=
  match i with
  | IStr s => trimmed s ∧ s ≠ EmptyString
  | IDict _ v => trimmed v
  end.

Definition trimmed_value (v : xval) : Prop :=
  match v with
  | XStr s => trimmed s
  | XList l => Forall trimmed_item l
  end.

(** The part of a document the parser depends on: no ['pages'] element,
    nothing below the grandchildren, and no text of a top-level element
    that has children. *)
Definition leaf_view (x : element) : element :=
  Element (tag x) (text x) [].

Definition child_view (child : element) : element :=
  Element (tag child) (text child) (map leaf_view (getchildren child)).

Definition top_view (e : element) : element :=
  match getchildren e with
  | [] => Element (tag e) (text e) []
  | c_elements => Element (tag e) None (map child_view c_elements)
  end.

Definition shallow (root : element) : element :=
  Element EmptyString None
    (map top_view
       (List.filter (λ e, negb (String.eqb (tag e) "pages")) (getchildren root))).


(** ** Further sample inputs *)

Module Cases.

(** An author whose surname element is empty, [<surname/>]. *)
Definition empty_surname : element :=
  Element "article" None
    [ Element "authors" None
        [ Element "author" None [ Element "surname" None [] ] ] ].

Definition with_languages : gmap string xval :=
  py_dict (Sample.journal ++
           [ ("title", XStr "On Coal");
             ("languages", XList [IStr "eng"; IStr "fre"]) ]).

Definition text_author : gmap string xval :=
  Sample.with_authors [ IStr "John Smith" ].

Definition list_pagerange : gmap string xval :=
  py_dict (Sample.journal ++
           [ ("title", XStr "On Coal"); ("pagerange", XList [IStr "5"]) ]).

Definition two_authors : gmap string xval :=
  Sample.with_authors
    [ IDict "surname" "Smith"; IDict "givennames" "John";
      IDict "surname" "Jones"; IDict "givennames" "Mary" ].

(** A whole record, and the files of its article. *)
Definition record : element :=
  Element "article" None
    [ Sample.leaf "id" "10.2307/1234";
      Sample.leaf "journalabbrv" "acmej";
      Sample.leaf "journaltitle" "Acme Journal";
      Sample.leaf "title" "On Coal" ].

Definition pdf_path : string :=
  PDF_ROOT +:+ "acmej/i200/00/1234.pdf".

Definition xml_path : string := XML_ROOT +:+ "10.2307_1234.xml".

Definition on_disk (path : string) : bool := String.eqb path xml_path.

Definition read_xml (path : string) : result element :=
  if String.eqb path xml_path then OK record else Raise KeyError.

Definition item_upload (call : upload_call) : result string := OK "uploaded".

Definition article : gmap string string :=
  py_dict [ ("pdf_path", pdf_path); ("journal", "acmej"); ("issueid", "i200");
            ("articleid", "10.2307_1234"); ("xml_path", xml_path) ].

End Cases.

(** * Properties *)

(** ** The string primitives on sample arguments *)

Example split_range : Py.split Py.dash "5-9" = ["5"; "9"].
Proof. reflexivity. Qed.

Example split_single : Py.split Py.dash "5" = ["5"].
Proof. reflexivity. Qed.

Example strip_both : Py.strip_sc " , Smith, " = "Smith".
Proof. reflexivity. Qed.

Example int_examples :
  Py.int " 12 " = Some 12 ∧ Py.int "foo" = None ∧ Py.int "" = None ∧
  Py.int "+7" = Some 7 ∧ Py.int "-3" = Some (-3) ∧ Py.int "1 2" = None.
Proof. repeat split; reflexivity. Qed.

Example str_examples :
  Py.str_of_int 6 = "6" ∧ Py.str_of_int 0 = "0" ∧ Py.str_of_int (-2) = "-2".
Proof. repeat split; reflexivity. Qed.

Example format_list :
  format (PList [IStr "bar"; IDict "surname" "O'Neil"]) =
  "['bar', {'surname': " +:+ String Repr.quote2 "O'Neil" +:+ String Repr.quote2 "}]".
Proof. reflexivity. Qed.

(** ** The error monad *)

Lemma rbind_OK {A B : Type} (m : result A) (f : A → result B) (b : B) :
  rbind m f = OK b ↔ ∃ a, m = OK a ∧ f a = OK b.
Proof.
  destruct m as [a|e]; simpl; split.
  - eauto.
  - intros (a' & Ha & Hf). by injection Ha as ->.
  - discriminate.
  - intros (a' & Ha & _). discriminate.
Qed.

Lemma rbind_raises {A B : Type} (m : result A) (f : A → result B) :
  raises m → raises (rbind m f).
Proof. intros [e ->]. by exists e. Qed.

Lemma rbind_raises_after {A B : Type} (m : result A) (f : A → result B) :
  (∀ a, m = OK a → raises (f a)) → raises (rbind m f).
Proof. destruct m as [a|e]; simpl; [eauto | intros _; by exists e]. Qed.

Ltac inv_bind H :=
  let a := fresh "a" in
  let Ha := fresh "Ha" in
  apply rbind_OK in H; destruct H as (a & Ha & H).

Ltac lookup_lit :=
  repeat first
    [ rewrite lookup_insert_eq
    | rewrite lookup_insert_ne by done
    | rewrite lookup_empty ].

(** ** The steps of [make_ia_metadata], key by key *)

Lemma truthy_true v :
  truthy v = true → v ≠ PNone ∧ v ≠ PStr EmptyString ∧ v ≠ PList [].
Proof. by destruct v as [|[|??]|[|??]]. Qed.

Section Synthesizer.

Variable render : gmap string pval → string.
Variable file_md : gmap string string.

Lemma initial_md_inv xml_md md :
  initial_md xml_md = OK md →
  ∃ id journalabbrv,
    xml_md !! "id" = Some (XStr id) ∧
    xml_md !! "journalabbrv" = Some journalabbrv ∧
    md !! "title" = None ∧
    md !! "pagerange" = Some (get xml_md "pagerange") ∧
    md !! "journaltitle" = Some (get xml_md "journaltitle") ∧
    md !! "date" = Some (get xml_md "pubdate") ∧
    md !! "collection" =
      Some (PList [ IStr ("jstor_" +:+ format (of_xval journalabbrv));
                    IStr "jstor_ejc"; IStr "additional_collections" ]).
Proof.
  unfold initial_md. intros H.
  inv_bind H. inv_bind H. injection H as <-.
  unfold get, split_method in Ha.
  destruct (xml_md !! "id") as [[id|l]|] eqn:Hid; try discriminate.
  unfold getitem in Ha0.
  destruct (xml_md !! "journalabbrv") as [ja|] eqn:Hja; [|discriminate].
  injection Ha0 as <-.
  exists id, ja. unfold py_dict; simpl. by lookup_lit.
Qed.

Lemma initial_md_raises xml_md :
  xml_md !! "id" = None ∨ xml_md !! "journalabbrv" = None →
  raises (initial_md xml_md).
Proof.
  intros H. destruct (initial_md xml_md) as [md|e] eqn:E; [|by exists e].
  apply initial_md_inv in E as (id & ja & Hid & Hja & _).
  destruct H; congruence.
Qed.

Lemma set_title_other xml_md md md' k :
  set_title xml_md md = OK md' → k ≠ "title" → md' !! k = md !! k.
Proof.
  unfold set_title. intros H Hk.
  destruct (xml_md !! "title").
  - injection H as <-. by rewrite lookup_insert_ne.
  - do 4 inv_bind H. destruct (negb a0); injection H as <-;
      by rewrite lookup_insert_ne.
Qed.

Lemma set_creator_other xml_md md md' k :
  set_creator xml_md md = OK md' → k ≠ "creator" → md' !! k = md !! k.
Proof.
  unfold set_creator. intros H Hk.
  destruct (truthy _).
  - inv_bind H. destruct (a !! "givennames").
    + inv_bind H. injection H as <-. by rewrite lookup_insert_ne.
    + destruct (get_nonempty a "stringname");
        [injection H as <-; by rewrite lookup_insert_ne|].
      destruct (get_nonempty a "surname"); [|discriminate].
      injection H as <-. by rewrite lookup_insert_ne.
  - injection H as <-. by rewrite lookup_insert_ne.
Qed.

Lemma set_language_other xml_md md md' k :
  set_language xml_md md = OK md' → k ≠ "language" → md' !! k = md !! k.
Proof.
  unfold set_language. intros H Hk.
  destruct (truthy _).
  - inv_bind H. injection H as <-. by rewrite lookup_insert_ne.
  - by injection H as <-.
Qed.

Lemma set_external_identifier_other xml_md md k :
  k ≠ "external-identifier" →
  set_external_identifier xml_md md !! k = md !! k.
Proof. intros Hk. unfold set_external_identifier. by rewrite lookup_insert_ne. Qed.

Lemma set_imagecount_other xml_md md md' k :
  set_imagecount xml_md md = OK md' → k ≠ "imagecount" → md' !! k = md !! k.
Proof.
  unfold set_imagecount. intros H Hk.
  destruct (truthy _).
  - do 3 inv_bind H. destruct a1; injection H as <-; by rewrite lookup_insert_ne.
  - by injection H as <-.
Qed.

(** The last step: the title is converted, the description is set, and
    every other key is kept when its value is truthy. *)
Lemma finish_lookup md r :
  finish render md = OK r →
  ∃ title,
    md !! "title" = Some title ∧
    r !! "title" = keep (Some (PStr (format title))) ∧
    ∀ k, k ≠ "title" → k ≠ "description" → r !! k = keep (md !! k).
Proof.
  unfold finish. intros H. inv_bind H. injection H as <-.
  unfold getitem in Ha. destruct (md !! "title") as [title|] eqn:Ht; [|discriminate].
  injection Ha as <-. exists title. split; [done|].
  assert (Hf : ∀ (m : gmap string pval) k,
             filter (λ kv : string * pval, truthy kv.2 = true) m !! k = keep (m !! k)).
  { intros m k. rewrite map_lookup_filter.
    destruct (m !! k) as [v|]; simpl; [|done].
    destruct (truthy v); by simplify_option_eq. }
  split.
  - rewrite Hf. by lookup_lit.
  - intros k Hk1 Hk2. rewrite Hf. by lookup_lit.
Qed.

Lemma finish_truthy md r k v :
  finish render md = OK r → r !! k = Some v → truthy v = true.
Proof.
  unfold finish. intros H. inv_bind H. injection H as <-.
  intros Hk. by apply map_lookup_filter_Some in Hk as [_ Hv].
Qed.

(** The run of a call that returns, step by step. *)
Lemma make_ia_metadata_inv xml_md r :
  make_ia_metadata render file_md xml_md = OK r →
  ∃ md0 md1 md2 md3 md4,
    initial_md xml_md = OK md0 ∧
    set_title xml_md md0 = OK md1 ∧
    set_creator xml_md md1 = OK md2 ∧
    set_language xml_md md2 = OK md3 ∧
    set_imagecount xml_md (set_external_identifier xml_md md3) = OK md4 ∧
    finish render md4 = OK r.
Proof.
  unfold make_ia_metadata. intros H. do 5 inv_bind H.
  by exists a, a0, a1, a2, a3.
Qed.

(** What a returned object holds, in terms of the intermediate states. *)
Lemma make_ia_metadata_run xml_md r :
  make_ia_metadata render file_md xml_md = OK r →
  ∃ md0 md1 md2 md3 md4 title,
    initial_md xml_md = OK md0 ∧
    set_title xml_md md0 = OK md1 ∧
    set_creator xml_md md1 = OK md2 ∧
    set_imagecount xml_md md3 = OK md4 ∧
    md1 !! "title" = Some title ∧
    r !! "title" = keep (Some (PStr (format title))) ∧
    r !! "creator" = keep (md2 !! "creator") ∧
    r !! "collection" = keep (md0 !! "collection") ∧
    r !! "imagecount" = keep (md4 !! "imagecount").
Proof.
  intros H.
  apply make_ia_metadata_inv in H
    as (md0 & md1 & md2 & md3 & md4 & H0 & H1 & H2 & H3 & H4 & H5).
  apply finish_lookup in H5 as (title & Ht & Hrt & Hr).
  exists md0, md1, md2, (set_external_identifier xml_md md3), md4, title.
  rewrite (Hr "creator"), (Hr "collection"), (Hr "imagecount") by done.
  repeat split; try done.
  - rewrite <- Ht.
    rewrite (set_imagecount_other _ _ _ _ H4) by done.
    rewrite set_external_identifier_other by done.
    rewrite (set_language_other _ _ _ _ H3) by done.
    by rewrite (set_creator_other _ _ _ _ H2).
  - rewrite (set_imagecount_other _ _ _ _ H4) by done.
    rewrite set_external_identifier_other by done.
    by rewrite (set_language_other _ _ _ _ H3).
  - rewrite (set_imagecount_other _ _ _ _ H4) by done.
    rewrite set_external_identifier_other by done.
    rewrite (set_language_other _ _ _ _ H3) by done.
    rewrite (set_creator_other _ _ _ _ H2) by done.
    by rewrite (set_title_other _ _ _ _ H1).
Qed.

Lemma make_ia_metadata_raises_title xml_md :
  (∀ md0, initial_md xml_md = OK md0 → raises (set_title xml_md md0)) →
  raises (make_ia_metadata render file_md xml_md).
Proof.
  intros H. unfold make_ia_metadata.
  apply rbind_raises_after; intros md0 H0.
  apply rbind_raises. by apply H.
Qed.

Lemma make_ia_metadata_raises_creator xml_md :
  (∀ md1, raises (set_creator xml_md md1)) →
  raises (make_ia_metadata render file_md xml_md).
Proof.
  intros H. unfold make_ia_metadata.
  apply rbind_raises_after; intros md0 _.
  apply rbind_raises_after; intros md1 _.
  by apply rbind_raises.
Qed.

(** The image count the [try] block leaves for a string page range. *)
Lemma set_imagecount_str xml_md md p :
  xml_md !! "pagerange" = Some (XStr p) → p ≠ EmptyString →
  ∃ n, count_images (rev (Py.split Py.dash p)) = OK n ∧
       set_imagecount xml_md md =
         OK (<["imagecount" := match n with Some s => PStr s | None => PNone end]> md).
Proof.
  intros Hp Hne. unfold set_imagecount, get, getitem. rewrite Hp. simpl.
  destruct p as [|c p']; [done|].
  change (truthy (PStr (String c p'))) with true. cbv iota.
  destruct (rev (Py.split Py.dash (String c p'))) as [|p0 [|p1 rest]] eqn:E.
  - exfalso. apply (f_equal length) in E. rewrite length_rev in E.
    simpl in E. destruct (Ascii.eqb c Py.dash); [done|].
    by destruct (Py.split Py.dash p').
  - exists (Some "2"). by simpl.
  - simpl. destruct (Py.int p0), (Py.int p1); simpl; eauto.
Qed.

Lemma make_ia_metadata_no_authors xml_md md :
  make_ia_metadata render file_md xml_md = OK md →
  truthy (get xml_md "authors") = false → md !! "creator" = None.
Proof.
  intros H Ha.
  apply make_ia_metadata_run in H
    as (md0 & md1 & md2 & md3 & md4 & t & _ & _ & Hc & _ & _ & _ & -> & _).
  unfold set_creator in Hc. rewrite Ha in Hc. injection Hc as <-.
  by rewrite lookup_insert_eq.
Qed.

(** C1.  Pruning invariant: in the object [make_ia_metadata] returns,
    every key maps to a truthy value; none maps to [None], to the empty
    string or to the empty list.  In particular the [None] creator of a
    record without authors, and the [None] image count of a page range
    that does not parse, are gone from the returned object. *)
Theorem make_ia_metadata_pruned xml_md md :
  make_ia_metadata render file_md xml_md = OK md →
  (∀ k v, md !! k = Some v →
     truthy v = true ∧ v ≠ PNone ∧ v ≠ PStr EmptyString ∧ v ≠ PList []) ∧
  (truthy (get xml_md "authors") = false → md !! "creator" = None) ∧
  (∀ p, xml_md !! "pagerange" = Some (XStr p) → p ≠ EmptyString →
     count_images (rev (Py.split Py.dash p)) = OK None →
     md !! "imagecount" = None).
Proof.
  intros H. split; [|split].
  - intros k v Hk.
    apply make_ia_metadata_inv in H as (? & ? & ? & ? & md4 & _ & _ & _ & _ & _ & H5).
    pose proof (finish_truthy _ _ _ _ H5 Hk) as Hv.
    split; [done|]. by apply truthy_true.
  - by apply make_ia_metadata_no_authors.
  - intros p Hp Hne Hc.
    apply make_ia_metadata_run in H
      as (md0 & md1 & md2 & md3 & md4 & t & _ & _ & _ & H4 & _ & _ & _ & _ & ->).
    destruct (set_imagecount_str xml_md md3 p Hp Hne) as (n & Hn & Hs).
    rewrite Hc in Hn. injection Hn as <-.
    rewrite H4 in Hs. injection Hs as ->.
    by rewrite lookup_insert_eq.
Qed.

(** C5.  A record without the ['id'] field or without the
    ['journalabbrv'] field makes [make_ia_metadata] raise; and in every
    object it returns, the collection list has exactly three entries: the
    collection of the journal, built from ['journalabbrv'], and the two
    fixed ones. *)
Theorem make_ia_metadata_required_fields xml_md :
  (xml_md !! "id" = None ∨ xml_md !! "journalabbrv" = None →
   raises (make_ia_metadata render file_md xml_md)) ∧
  (∀ md, make_ia_metadata render file_md xml_md = OK md →
     ∃ journalabbrv,
       xml_md !! "journalabbrv" = Some journalabbrv ∧
       md !! "collection" =
         Some (PList [ IStr ("jstor_" +:+ format (of_xval journalabbrv));
                       IStr "jstor_ejc"; IStr "additional_collections" ])).
Proof.
  split.
  - intros H. apply rbind_raises. by apply initial_md_raises.
  - intros md H.
    apply make_ia_metadata_run in H
      as (md0 & md1 & md2 & md3 & md4 & t & H0 & _ & _ & _ & _ & _ & _ & -> & _).
    apply initial_md_inv in H0 as (id & ja & _ & Hja & _ & _ & _ & _ & ->).
    by exists ja.
Qed.

(** C10.  A record with neither a title nor a page range makes
    [make_ia_metadata] raise: the placeholder title inspects the page
    range, and ['-' in None] is a [TypeError]. *)
Theorem make_ia_metadata_no_title_no_pagerange xml_md :
  xml_md !! "title" = None →
  xml_md !! "pagerange" = None →
  raises (make_ia_metadata render file_md xml_md).
Proof.
  intros Ht Hp. apply make_ia_metadata_raises_title. intros md0 H0.
  apply initial_md_inv in H0 as (_ & _ & _ & _ & _ & Hpr & _).
  unfold set_title. rewrite Ht. unfold getitem. rewrite Hpr. simpl.
  unfold get. rewrite Hp. simpl. by exists TypeError.
Qed.

Lemma truthy_comma a b : truthy (PStr (a +:+ ", " +:+ b)) = true.
Proof. by destruct a. Qed.

Lemma get_nonempty_Some auth_md k s :
  get_nonempty auth_md k = Some s ↔ auth_md !! k = Some s ∧ s ≠ EmptyString.
Proof.
  unfold get_nonempty.
  destruct (auth_md !! k) as [[|a r]|]; split; try done.
  - by intros [[= <-] ?].
  - by intros [= <-].
  - by intros [[= <-] _].
  - by intros [? _].
Qed.

(** C2, amended.  For a record without a title on which
    [make_ia_metadata] returns, the title of the returned object is the
    placeholder built from the journal title, the date and the page
    range: the "page" template when the page range has no ['-'], the
    "pages" template when it has one.  A source title that is a non-empty
    string is the title of the returned object, unchanged. *)
Theorem make_ia_metadata_title xml_md md :
  make_ia_metadata render file_md xml_md = OK md →
  (xml_md !! "title" = None →
   ∃ has_dash,
     contains_dash (get xml_md "pagerange") = OK has_dash ∧
     md !! "title" =
       Some (PStr (if has_dash
                   then untitled_pages (get xml_md "journaltitle")
                          (get xml_md "pubdate") (get xml_md "pagerange")
                   else untitled_page (get xml_md "journaltitle")
                          (get xml_md "pubdate") (get xml_md "pagerange")))) ∧
  (∀ title, xml_md !! "title" = Some (XStr title) → title ≠ EmptyString →
     md !! "title" = Some (PStr title)).
Proof.
  intros H.
  apply make_ia_metadata_run in H
    as (md0 & md1 & md2 & md3 & md4 & t & H0 & H1 & _ & _ & Ht & -> & _).
  apply initial_md_inv in H0 as (_ & _ & _ & _ & _ & Hpr & Hjt & Hd & _).
  unfold set_title in H1. split.
  - intros Hx. rewrite Hx in H1. unfold getitem in H1.
    rewrite Hpr, Hjt, Hd in H1. simpl in H1.
    destruct (contains_dash (get xml_md "pagerange")) as [b|e]; [|done].
    exists b. split; [done|]. simpl in H1.
    destruct b; simpl in H1; injection H1 as <-;
      rewrite lookup_insert_eq in Ht; by injection Ht as <-.
  - intros title Hx Hne. rewrite Hx in H1. injection H1 as <-.
    rewrite lookup_insert_eq in Ht. injection Ht as <-. simpl.
    by destruct title.
Qed.

Lemma set_creator_authors xml_md md auth_md :
  truthy (get xml_md "authors") = true →
  make_auth_md (get xml_md "authors") = OK auth_md →
  set_creator xml_md md =
    match auth_md !! "givennames" with
    | Some givennames =>
        do surname <- getitem auth_md "surname";
        OK (<["creator" :=
                PStr (Py.strip_sc surname +:+ ", " +:+ Py.strip_sc givennames)]> md)
    | None =>
        match get_nonempty auth_md "stringname" with
        | Some stringname => OK (<["creator" := PStr (Py.strip_sc stringname)]> md)
        | None =>
            match get_nonempty auth_md "surname" with
            | Some surname => OK (<["creator" := PStr (Py.strip_sc surname)]> md)
            | None => Raise NameError
            end
        end
    end.
Proof. intros Ht Ha. unfold set_creator. by rewrite Ht, Ha. Qed.

(** C3, amended.  With a non-empty authors field whose entries merge
    into [auth_md]: (a) when surname and given names are present the
    creator is "Surname, GivenNames", each part trimmed of spaces and
    commas; (b) when the given names are absent and stringname is present
    and not empty, the creator is its trimmed value; (c) when the given
    names are absent, stringname is absent or empty, and surname is
    present and not empty, the creator is the trimmed surname; in (b) and
    (c) a value that trims to the empty string is pruned.  When the given
    names are absent and neither stringname nor surname has a non-empty
    value, [make_ia_metadata] raises.  Without an authors field the
    creator step raises nothing and the returned object has no creator. *)
Theorem make_ia_metadata_creator xml_md :
  (∀ md auth_md,
     make_ia_metadata render file_md xml_md = OK md →
     truthy (get xml_md "authors") = true →
     make_auth_md (get xml_md "authors") = OK auth_md →
     (∀ surname givennames,
        auth_md !! "surname" = Some surname →
        auth_md !! "givennames" = Some givennames →
        md !! "creator" =
          Some (PStr (Py.strip_sc surname +:+ ", " +:+ Py.strip_sc givennames))) ∧
     (∀ stringname,
        auth_md !! "givennames" = None →
        auth_md !! "stringname" = Some stringname → stringname ≠ EmptyString →
        md !! "creator" = keep (Some (PStr (Py.strip_sc stringname)))) ∧
     (∀ surname,
        auth_md !! "givennames" = None →
        get_nonempty auth_md "stringname" = None →
        auth_md !! "surname" = Some surname → surname ≠ EmptyString →
        md !! "creator" = keep (Some (PStr (Py.strip_sc surname))))) ∧
  (truthy (get xml_md "authors") = true →
   (∀ auth_md,
      make_auth_md (get xml_md "authors") = OK auth_md →
      auth_md !! "givennames" = None ∧
      get_nonempty auth_md "stringname" = None ∧
      get_nonempty auth_md "surname" = None) →
   raises (make_ia_metadata render file_md xml_md)) ∧
  (xml_md !! "authors" = None →
   (∀ md1, set_creator xml_md md1 = OK (<["creator" := PNone]> md1)) ∧
   (∀ md, make_ia_metadata render file_md xml_md = OK md → md !! "creator" = None)).
Proof.
  split; [|split].
  - intros md auth_md H Ht Ha.
    apply make_ia_metadata_run in H
      as (md0 & md1 & md2 & md3 & md4 & t & _ & _ & Hc & _ & _ & _ & -> & _).
    rewrite (set_creator_authors _ _ _ Ht Ha) in Hc.
    split; [|split].
    + intros s g Hs Hg. rewrite Hg in Hc. unfold getitem in Hc. rewrite Hs in Hc.
      simpl in Hc. injection Hc as <-. rewrite lookup_insert_eq. unfold keep.
      by rewrite truthy_comma.
    + intros n Hg Hn Hne. rewrite Hg in Hc.
      assert (get_nonempty auth_md "stringname" = Some n) as Hn'
        by by apply get_nonempty_Some.
      rewrite Hn' in Hc. injection Hc as <-. by rewrite lookup_insert_eq.
    + intros s Hg Hn Hs Hne. rewrite Hg, Hn in Hc.
      assert (get_nonempty auth_md "surname" = Some s) as Hs'
        by by apply get_nonempty_Some.
      rewrite Hs' in Hc. injection Hc as <-. by rewrite lookup_insert_eq.
  - intros Ht Hnone. apply make_ia_metadata_raises_creator. intros md1.
    destruct (make_auth_md (get xml_md "authors")) as [auth_md|e] eqn:Ha.
    + rewrite (set_creator_authors _ _ _ Ht Ha).
      destruct (Hnone auth_md eq_refl) as (-> & -> & ->). by exists NameError.
    + unfold set_creator. rewrite Ht, Ha. by exists e.
  - intros Hx.
    assert (truthy (get xml_md "authors") = false) as Ht
      by (unfold get; by rewrite Hx).
    split.
    + intros md1. unfold set_creator. by rewrite Ht.
    + intros md H. by apply (make_ia_metadata_no_authors xml_md).
Qed.




End Synthesizer.

(** ** The parser *)

Lemma mapM_OK {A B : Type} (f : A → result B) (g : A → B) (P : A → Prop) l r :
  (∀ a b, f a = OK b → b = g a ∧ P a) →
  mapM f l = OK r → r = map g l ∧ Forall P l.
Proof.
  intros Hf. revert r. induction l as [|a l IH]; simpl; intros r H.
  - by injection H as <-.
  - do 2 inv_bind H. injection H as <-.
    destruct (Hf _ _ Ha) as [-> ?], (IH _ Ha0) as [-> ?].
    by split; [|constructor].
Qed.

Lemma child_entries_OK child entries :
  child_entries child = OK entries →
  entries = child_sequence child ∧
  Forall (λ x, is_Some (text x)) (getchildren child).
Proof.
  unfold child_entries. intros H. inv_bind H. injection H as <-.
  eapply (mapM_OK _ (λ x, IDict (tag x) (trimmed_text x))
            (λ x, is_Some (text x))) in Ha as [-> Hall].
  - split; [|done]. unfold child_sequence, trimmed_text. f_equal.
    destruct (text child) as [[|c s]|]; simpl; try done.
  - intros x b Hx. unfold text_strip, trimmed_text in *.
    destruct (text x) as [s|]; simpl in *; [|done].
    injection Hx as <-. eauto.
Qed.

Lemma element_value_leaf e :
  getchildren e = [] →
  element_value e =
    match text e with
    | Some s => OK (XStr (Py.strip s))
    | None => Raise AttributeError
    end.
Proof.
  unfold element_value, text_strip. intros ->. by destruct (text e).
Qed.

Lemma element_value_node e v :
  getchildren e ≠ [] →
  element_value e = OK v →
  v = XList (flat_map child_sequence (getchildren e)) ∧
  Forall (λ child, Forall (λ x, is_Some (text x)) (getchildren child))
         (getchildren e).
Proof.
  unfold element_value. intros Hne H.
  destruct (getchildren e) as [|c cs] eqn:E; [done|].
  inv_bind H. injection H as <-.
  apply (mapM_OK _ child_sequence _ _ _ child_entries_OK) in Ha as [-> Hall].
  split; [|done]. f_equal. generalize (c :: cs). intros l.
  induction l as [|x l IH]; simpl; [done|]. by rewrite IH.
Qed.

Lemma foldM_parse_step_raises md l e :
  e ∈ l → raises (element_value e) → raises (foldM parse_step md l).
Proof.
  intros He [ex Hex]. revert md.
  induction l as [|x l IH]; intros md; [by apply elem_of_nil in He|].
  simpl. apply elem_of_cons in He as [<-|He].
  - apply rbind_raises. unfold parse_step. rewrite Hex. by exists ex.
  - apply rbind_raises_after. intros md' _. by apply IH.
Qed.

Lemma foldM_parse_step_other md l md' t :
  foldM parse_step md l = OK md' →
  Forall (λ e, tag e ≠ t) l → md' !! t = md !! t.
Proof.
  revert md. induction l as [|x l IH]; simpl; intros md H Hall.
  - by injection H as <-.
  - inv_bind H. apply Forall_cons in Hall as [Hx Hall].
    rewrite (IH _ H Hall). unfold parse_step in Ha. inv_bind Ha.
    injection Ha as <-. by rewrite lookup_insert_ne.
Qed.

Lemma foldM_parse_step_last md l md' before e after :
  foldM parse_step md l = OK md' →
  l = (before ++ e :: after)%list →
  Forall (λ e', tag e' ≠ tag e) after →
  ∃ v, element_value e = OK v ∧ md' !! tag e = Some v.
Proof.
  intros H -> Hafter. revert md H.
  induction before as [|x before IH]; simpl; intros md H.
  - inv_bind H. unfold parse_step in Ha. inv_bind Ha. injection Ha as <-.
    exists a0. split; [done|].
    rewrite (foldM_parse_step_other _ _ _ _ H Hafter). apply lookup_insert_eq.
  - inv_bind H. by apply (IH a).
Qed.

Lemma foldM_parse_step_dom md l md' t :
  foldM parse_step md l = OK md' →
  is_Some (md' !! t) → is_Some (md !! t) ∨ ∃ e, e ∈ l ∧ tag e = t.
Proof.
  revert md. induction l as [|x l IH]; simpl; intros md H Ht.
  - injection H as <-. by left.
  - inv_bind H. destruct (IH _ H Ht) as [Hs|(e & He & Hte)].
    + unfold parse_step in Ha. inv_bind Ha. injection Ha as <-.
      destruct (decide (tag x = t)) as [Hx|Hx].
      * right. exists x. split; [apply elem_of_cons; by left|done].
      * left. by rewrite lookup_insert_ne in Hs.
    + right. exists e. split; [apply elem_of_cons; by right|done].
Qed.

Lemma not_pages_filter (l : list element) before e after :
  l = (before ++ e :: after)%list → tag e ≠ "pages" →
  List.filter (λ e, negb (String.eqb (tag e) "pages")) l =
    (List.filter (λ e, negb (String.eqb (tag e) "pages")) before ++
     e :: List.filter (λ e, negb (String.eqb (tag e) "pages")) after)%list.
Proof.
  intros -> He. rewrite List.filter_app. simpl.
  by apply String.eqb_neq in He as ->.
Qed.

Lemma last_occurrence (l : list element) e t :
  e ∈ l → tag e = t →
  ∃ before e' after,
    l = (before ++ e' :: after)%list ∧ tag e' = t ∧
    Forall (λ x, tag x ≠ tag e') after.
Proof.
  intros He Ht.
  assert (Exists (λ x, tag x = t) l) as Hex by (apply Exists_exists; eauto).
  clear e He Ht. induction l as [|x l IH]; [by apply Exists_nil in Hex|].
  destruct (decide (Exists (λ x, tag x = t) l)) as [Hl|Hl].
  - destruct (IH Hl) as (before & e' & after & -> & He' & Hafter).
    by exists (x :: before), e', after.
  - apply Exists_cons in Hex as [Hx|Hx]; [|done].
    exists [], x, l. repeat split; [done|].
    apply not_Exists_Forall in Hl; [|apply _].
    rewrite Hx. eapply Forall_impl; [exact Hl|]. by intros y Hy.
Qed.

Lemma Forall_filter_not_pages (P : element → Prop) after :
  Forall P after →
  Forall P (List.filter (λ e, negb (String.eqb (tag e) "pages")) after).
Proof.
  rewrite !Forall_forall. intros H x Hx.
  apply list_elem_of_In, List.filter_In in Hx as [Hx _].
  apply H. by apply list_elem_of_In.
Qed.

(** C9, amended.  When [parse_article_xml] returns, the mapping has an
    entry exactly for the tags of the top-level child elements other
    than ['pages'], and the entry of a tag is computed from the last
    top-level element that carries it: the trimmed text for a childless
    element; for an element with children the ordered sequence that holds,
    child by child, the trimmed child text when it is not empty and then
    one [{grandchild tag: trimmed text}] per grandchild.  A childless
    top-level element other than ['pages'] that has no text makes the
    parser raise. *)
Theorem parse_article_xml_entries root :
  (∀ md, parse_article_xml root = OK md →
     (∀ t, is_Some (md !! t) ↔
           t ≠ "pages" ∧ ∃ e, e ∈ getchildren root ∧ tag e = t) ∧
     (∀ e, last_with_tag root e → tag e ≠ "pages" →
        (getchildren e = [] →
           ∃ s, text e = Some s ∧ md !! tag e = Some (XStr (Py.strip s))) ∧
        (getchildren e ≠ [] →
           md !! tag e = Some (XList (flat_map child_sequence (getchildren e)))))) ∧
  (∀ e, e ∈ getchildren root → tag e ≠ "pages" →
     getchildren e = [] → text e = None →
     raises (parse_article_xml root)).
Proof.
  unfold parse_article_xml. split.
  - intros md H.
    assert (∀ e, last_with_tag root e → tag e ≠ "pages" →
              ∃ v, element_value e = OK v ∧ md !! tag e = Some v) as Hlast.
    { intros e (before & after & Hl & Hafter) Hp.
      eapply foldM_parse_step_last; [exact H|by apply not_pages_filter|].
      by apply Forall_filter_not_pages. }
    split.
    + intros t. split.
      * intros Ht. destruct (foldM_parse_step_dom _ _ _ _ H Ht) as [Hs|(e & He & Hte)].
        { rewrite lookup_empty in Hs. by destruct Hs. }
        apply list_elem_of_In, List.filter_In in He as [He Hp].
        apply negb_true_iff, String.eqb_neq in Hp.
        split; [congruence|]. exists e. by rewrite list_elem_of_In.
      * intros (Htp & e & He & Hte).
        destruct (last_occurrence _ _ _ He Hte) as (before & e' & after & Hl & <- & Hafter).
        destruct (Hlast e') as (v & _ & ->); [by exists before, after|done|eauto].
    + intros e He Hp. destruct (Hlast e He Hp) as (v & Hv & ->). split.
      * intros Hc. rewrite (element_value_leaf _ Hc) in Hv.
        destruct (text e) as [s|]; [|done]. injection Hv as <-. eauto.
      * intros Hc. by apply (element_value_node _ _ Hc) in Hv as [-> _].
  - intros e He Hp Hc Ht.
    apply foldM_parse_step_raises with e.
    + apply list_elem_of_In, List.filter_In. split; [by apply list_elem_of_In|].
      by apply negb_true_iff, String.eqb_neq.
    + rewrite (element_value_leaf _ Hc), Ht. by exists AttributeError.
Qed.

(** ** The reconciler *)

Lemma foldl_insert_union {V : Type} (l : list (string * V)) (m : gmap string V) :
  NoDup (l.*1) →
  foldl (λ m kv, <[kv.1 := kv.2]> m) m l = list_to_map l ∪ m.
Proof.
  revert m. induction l as [|[k v] l IH]; simpl; intros m Hnd.
  - by rewrite (left_id_L ∅ (∪)).
  - apply NoDup_cons in Hnd as [Hk Hnd]. rewrite IH by done.
    apply map_eq. intros i. rewrite !lookup_union.
    destruct (decide (k = i)) as [<-|Hi].
    + rewrite !lookup_insert_eq, (not_elem_of_list_to_map_1 _ _ Hk).
      by destruct (m !! k).
    + by rewrite !lookup_insert_ne.
Qed.

(** [dict(src.items() + metadata.items())] is [src] with the overlay
    applied. *)
Lemma py_dict_items {V : Type} (src metadata : gmap string V) :
  py_dict (map_to_list src ++ map_to_list metadata) = metadata ∪ src.
Proof.
  unfold py_dict. rewrite foldl_app.
  rewrite !foldl_insert_union by apply NoDup_fst_map_to_list.
  by rewrite !list_to_map_to_list, (right_id_L ∅ (∪)).
Qed.

Lemma flat_map_nil {A B : Type} (f : A → list B) (l : list A) :
  (∀ x, x ∈ l → f x = []) → flat_map f l = [].
Proof.
  induction l as [|x l IH]; simpl; intros H; [done|].
  rewrite H by apply list_elem_of_here.
  apply IH. intros y Hy. apply H. by apply list_elem_of_further.
Qed.

Lemma flat_map_single {A B : Type} (f : A → list B) (l : list A) x :
  NoDup l → x ∈ l → (∀ y, y ∈ l → y ≠ x → f y = []) →
  flat_map f l = f x.
Proof.
  induction l as [|z l IH]; simpl; intros Hnd Hx H; [by apply elem_of_nil in Hx|].
  apply NoDup_cons in Hnd as [Hz Hnd].
  apply elem_of_cons in Hx as [->|Hx].
  - rewrite (flat_map_nil f l); [by rewrite app_nil_r|].
    intros y Hy. apply H; [by apply list_elem_of_further|]. by intros ->.
  - rewrite H; [|apply list_elem_of_here|by intros ->].
    apply IH; [done..|]. intros y Hy. apply H. by apply list_elem_of_further.
Qed.

Lemma compare_values_same path v : JsonPatch.compare_values path v v = [].
Proof. unfold JsonPatch.compare_values. by rewrite decide_True. Qed.

(** Equal documents differ by the empty patch. *)
Lemma make_patch_same src : JsonPatch.make_patch src src = [].
Proof.
  unfold JsonPatch.make_patch, JsonPatch.compare_dict.
  rewrite !flat_map_nil; [done|..]; intros [k v] Hkv;
    apply elem_of_map_to_list in Hkv; simpl; rewrite Hkv; [done|].
  apply compare_values_same.
Qed.

(** Documents that differ in the string under one key differ by one
    [replace] of that key. *)
Lemma make_patch_replace src k x y :
  src !! k = Some (JStr x) → x ≠ y →
  JsonPatch.make_patch src (<[k := JStr y]> src) =
    [JsonPatch.replace ("/" +:+ k) (JStr y)].
Proof.
  intros Hk Hxy. unfold JsonPatch.make_patch, JsonPatch.compare_dict.
  rewrite (flat_map_nil _ (map_to_list (<[k := JStr y]> src))).
  - rewrite app_nil_r.
    rewrite (flat_map_single _ _ (k, JStr x)).
    + simpl. rewrite lookup_insert_eq. unfold JsonPatch.compare_values.
      rewrite decide_False by congruence. done.
    + apply NoDup_map_to_list.
    + by apply elem_of_map_to_list.
    + intros [k' v'] Hkv Hne. apply elem_of_map_to_list in Hkv. simpl.
      assert (k ≠ k') by (intros <-; congruence).
      rewrite lookup_insert_ne, Hkv by done. apply compare_values_same.
  - intros [k' v'] Hkv. apply elem_of_map_to_list in Hkv. simpl.
    destruct (decide (k = k')) as [<-|Hne]; [by rewrite Hk|].
    rewrite lookup_insert_ne in Hkv by done. by rewrite Hkv.
Qed.

Lemma flatten_no_value p : value p = None → flatten p = Raise KeyError.
Proof. unfold flatten. by intros ->. Qed.

Section ReconcilerProperties.

Variable dumps : list (gmap string json) → string.
Variable content : request → string.

Lemma modify_ia_metadata_run identifier metadata target w sig user :
  environ w !! "LOGGED_IN_SIG" = Some sig →
  environ w !! "LOGGED_IN_USER" = Some user →
  let url := "http://archive.org/metadata/" +:+ identifier in
  let src := default ∅ (remote w url !! target) in
  let w' := send (Get url) w in
  modify_ia_metadata dumps content identifier metadata target w =
    match mapM flatten (computed_patch src metadata) with
    | Raise e => (Raise e, w')
    | OK [] => (OK no_changes, w')
    | OK patch =>
        let r := Patch url
                   (py_dict [ ("-patch", dumps patch); ("-target", target) ])
                   (py_dict [ ("logged-in-sig", sig); ("logged-in-user", user) ]) in
        (OK (content r), send r w')
    end.
Proof.
  intros Hs Hu. unfold modify_ia_metadata, getitem. by rewrite Hs, Hu.
Qed.

(** C6.  With the credentials in the environment, [modify_ia_metadata]
    computes the patch from the remote metadata [src] to [src] with the
    overlay applied.  When the overlay changes nothing the patch is
    empty, the function returns ["No changes made to metadata."] and the
    only request sent is the read.  When the overlay is one key whose
    string differs from the remote one, the patch is exactly one
    [replace] of that key's path with the new string, sent in one patch
    request. *)
Theorem modify_ia_metadata_patch identifier metadata target w sig user :
  environ w !! "LOGGED_IN_SIG" = Some sig →
  environ w !! "LOGGED_IN_USER" = Some user →
  let url := "http://archive.org/metadata/" +:+ identifier in
  let src := default ∅ (remote w url !! target) in
  computed_patch src metadata = JsonPatch.make_patch src (metadata ∪ src) ∧
  (metadata ⊆ src →
     computed_patch src metadata = [] ∧
     modify_ia_metadata dumps content identifier metadata target w =
       (OK no_changes, send (Get url) w)) ∧
  (∀ k x y,
     src !! k = Some (JStr x) → metadata = {[k := JStr y]} → x ≠ y →
     let r := Patch url
                (py_dict [ ("-patch",
                             dumps [py_dict [ ("replace", JStr ("/" +:+ k));
                                              ("value", JStr y) ]]);
                           ("-target", target) ])
                (py_dict [ ("logged-in-sig", sig); ("logged-in-user", user) ]) in
     computed_patch src metadata = [JsonPatch.replace ("/" +:+ k) (JStr y)] ∧
     modify_ia_metadata dumps content identifier metadata target w =
       (OK (content r), send r (send (Get url) w))).
Proof.
  intros Hs Hu url src.
  assert (computed_patch src metadata = JsonPatch.make_patch src (metadata ∪ src)) as Hp.
  { unfold computed_patch. by rewrite py_dict_items. }
  split; [done|]. split.
  - intros Hsub.
    assert (computed_patch src metadata = []) as Hnil.
    { rewrite Hp, (map_subseteq_union _ _ Hsub). apply make_patch_same. }
    split; [done|].
    rewrite (modify_ia_metadata_run _ _ _ _ _ _ Hs Hu). fold url src.
    by rewrite Hnil.
  - intros k x y Hk -> Hxy r.
    assert (computed_patch src {[k := JStr y]} =
              [JsonPatch.replace ("/" +:+ k) (JStr y)]) as Hone.
    { rewrite Hp, <- insert_union_singleton_l. by apply (make_patch_replace _ _ x). }
    split; [done|].
    rewrite (modify_ia_metadata_run _ _ _ _ _ _ Hs Hu). fold url src.
    by rewrite Hone.
Qed.

End ReconcilerProperties.

Section ReconcilerFailure.

Variable dumps : list (gmap string json) → string.
Variable content : request → string.

(** An operation that carries a value is flattened to
    [{op: path, 'value': value}]. *)
Lemma flatten_with_value p v :
  value p = Some v →
  flatten p = OK (py_dict [ (op p, JStr (path p)); ("value", v) ]).
Proof. unfold flatten. by intros ->. Qed.

(** C7.  Overlaying [{"collection": ["a"]}] on the remote
    [{"collection": ["a", "b"]}]: the patch is the removal of
    [/collection/1], which has no value, so flattening it raises
    [KeyError] and the only request sent is the read. *)
Theorem modify_ia_metadata_remove_raises :
  let call :=
    modify_ia_metadata dumps content "jstor-123" Sample.one_collection "metadata"
      (Sample.serving Sample.two_collections) in
  computed_patch Sample.two_collections Sample.one_collection =
    [JsonPatch.remove "/collection/1"] ∧
  call.1 = Raise KeyError ∧
  sent call.2 = [Get "http://archive.org/metadata/jstor-123"].
Proof. repeat split; vm_compute; reflexivity. Qed.

End ReconcilerFailure.

(** ** The submission loop *)

Lemma submission_loop_iterator_interrupt pdf rest st :
  submission_loop ((pdf, InIterator) :: rest) st = (st, Some KeyboardInterrupt).
Proof. done. Qed.

Lemma submission_loop_body_interrupt pdf rest st :
  submission_loop ((pdf, BeforeSubmit) :: rest) st = submission_loop rest st.
Proof. done. Qed.

(** C8.  Two articles with their XML files, and a [KeyboardInterrupt]
    that arrives in the [try] of the first round: the first article is
    not submitted, the loop goes on, and the second article is
    submitted. *)
Theorem submission_loop_goes_on_after_interrupt :
  submission_loop
    [ (Sample.pdf "1", BeforeSubmit); (Sample.pdf "2", NoInterrupt) ]
    (Pool [] []) =
  (Pool [UnitOfWork (Sample.pdf "2") true] [], None).
Proof. reflexivity. Qed.

(** An interrupt between [executor.submit] and [add_done_callback]
    leaves a submitted unit without its reporting callback. *)
Example submission_loop_unit_without_callback :
  submission_loop [ (Sample.pdf "1", AfterSubmit) ] (Pool [] []) =
  (Pool [UnitOfWork (Sample.pdf "1") false] [], None).
Proof. reflexivity. Qed.

(** ** The functions on the sample inputs *)

Ltac compute_all := repeat split; vm_compute; (reflexivity || discriminate).

Example title_single_page :
  let r := make_ia_metadata Sample.template ∅ Sample.page in
  field r "title" = OK (Some (PStr "[untitled] Acme Journal (1920), page 5")) ∧
  field r "imagecount" = OK (Some (PStr "2")).
Proof. compute_all. Qed.

Example title_page_range :
  let r := make_ia_metadata Sample.template ∅ Sample.range in
  field r "title" = OK (Some (PStr "[untitled] Acme Journal, (1920), pages 5-9")) ∧
  field r "imagecount" = OK (Some (PStr "6")) ∧
  field r "description" =
    OK (Some (PStr "<p>[untitled] Acme Journal, (1920), pages 5-9</p>")) ∧
  field r "identifier" = OK (Some (PStr "jstor-123")) ∧
  field r "creator" = OK None.
Proof. compute_all. Qed.

Example imagecount_unparsed :
  field (make_ia_metadata Sample.template ∅ Sample.unparsed) "imagecount" = OK None.
Proof. compute_all. Qed.

Example creator_examples :
  field (make_ia_metadata Sample.template ∅ Sample.full_name) "creator" =
    OK (Some (PStr "Smith, John")) ∧
  field (make_ia_metadata Sample.template ∅ Sample.string_name) "creator" =
    OK (Some (PStr "John Smith")) ∧
  field (make_ia_metadata Sample.template ∅ Sample.surname_only) "creator" =
    OK (Some (PStr "Smith")) ∧
  make_ia_metadata Sample.template ∅ Sample.no_subfields = Raise NameError ∧
  make_ia_metadata Sample.template ∅ Sample.givennames_only = Raise KeyError.
Proof. compute_all. Qed.

Example parse_doc :
  let r := parse_article_xml Sample.doc in
  field r "title" = OK (Some (XStr "On Coal")) ∧
  field r "authors" =
    OK (Some (XList [ IDict "surname" "Smith"; IDict "givennames" "John" ])) ∧
  field r "pagerange" = OK (Some (XStr "5-9")) ∧
  field r "pages" = OK None.
Proof. compute_all. Qed.

Example parse_doc_markup :
  field (parse_article_xml Sample.doc_markup) "title" = OK (Some (XList [IStr "Coal"])).
Proof. compute_all. Qed.

(** ** Where the specification as worded fails *)

(** C2 as worded: a source title that is present is used unchanged.  A
    title that the parser read as a list comes back as the string of its
    [repr]; an empty title is present, and the returned object has no
    title. *)
Lemma make_ia_metadata_title_counterexample :
  (Sample.marked_title !! "title" = Some (XList [IStr "Coal"]) ∧
   field (make_ia_metadata Sample.template ∅ Sample.marked_title) "title" =
     OK (Some (PStr "['Coal']"))) ∧
  (Sample.empty_title !! "title" = Some (XStr EmptyString) ∧
   field (make_ia_metadata Sample.template ∅ Sample.empty_title) "title" = OK None).
Proof. compute_all. Qed.

(** C3 as worded: when surname and given names are not both present and
    a stringname is present, the creator is the trimmed stringname.  With
    a stringname that is present and empty, the creator is the surname;
    with given names, a stringname and no surname, the call raises
    [KeyError]. *)
Lemma make_ia_metadata_creator_counterexample :
  (let auth_md := make_auth_md (get Sample.empty_stringname "authors") in
   field auth_md "givennames" = OK None ∧
   field auth_md "stringname" = OK (Some EmptyString) ∧
   field auth_md "surname" = OK (Some "Smith") ∧
   field (make_ia_metadata Sample.template ∅ Sample.empty_stringname) "creator" =
     OK (Some (PStr "Smith"))) ∧
  (let auth_md := make_auth_md (get Sample.givennames_only "authors") in
   field auth_md "givennames" = OK (Some "John") ∧
   field auth_md "surname" = OK None ∧
   field auth_md "stringname" = OK (Some "John Smith") ∧
   make_ia_metadata Sample.template ∅ Sample.givennames_only = Raise KeyError).
Proof. compute_all. Qed.

(** C9 as worded: one entry per top-level child element, the entry of a
    childless element being its trimmed text.  Two elements with one tag
    share one entry, which holds the text of the second. *)
Lemma parse_article_xml_counterexample :
  getchildren Sample.doc_twice = [Sample.leaf "note" "x"; Sample.leaf "note" "y"] ∧
  field (parse_article_xml Sample.doc_twice) (tag (Sample.leaf "note" "x")) =
    OK (Some (XStr "y")) ∧
  XStr "y" ≠ XStr (Py.strip "x").
Proof. compute_all. Qed.

(** ** The theorems at the sample inputs *)

Ltac run md E :=
  cbv zeta;
  match goal with
  | |- context [make_ia_metadata ?r ?f ?x] =>
      let F := fresh "F" in
      assert (F : returns (make_ia_metadata r f x) = true)
        by (vm_compute; reflexivity);
      destruct (make_ia_metadata r f x) as [md|?] eqn:E;
      [clear F; unfold field; simpl|discriminate F]
  end.

Lemma make_ia_metadata_pruned_witness :
  let r := make_ia_metadata Sample.template ∅ Sample.unparsed in
  returns r = true ∧
  (∀ k v, field r k = OK (Some v) →
     truthy v = true ∧ v ≠ PNone ∧ v ≠ PStr EmptyString ∧ v ≠ PList []) ∧
  field r "creator" = OK None ∧
  field r "imagecount" = OK None.
Proof.
  run md E.
  destruct (make_ia_metadata_pruned Sample.template ∅ Sample.unparsed md E)
    as (Hall & Hc & Hi).
  split; [reflexivity|]. split; [|split].
  - intros k v [= Hk]. exact (Hall k v Hk).
  - rewrite Hc; [reflexivity|vm_compute; reflexivity].
  - rewrite (Hi "foo-bar"); [reflexivity|vm_compute; reflexivity|discriminate|].
    vm_compute. reflexivity.
Defined.

Lemma make_ia_metadata_title_witness :
  field (make_ia_metadata Sample.template ∅ Sample.page) "title" =
    OK (Some (PStr "[untitled] Acme Journal (1920), page 5")) ∧
  field (make_ia_metadata Sample.template ∅ Sample.range) "title" =
    OK (Some (PStr "[untitled] Acme Journal, (1920), pages 5-9")) ∧
  field (make_ia_metadata Sample.template ∅ Sample.titled) "title" =
    OK (Some (PStr "On Coal")).
Proof.
  split; [|split].
  - run md E.
    destruct (make_ia_metadata_title Sample.template ∅ Sample.page md E) as [Hs _].
    destruct Hs as (b & Hb & Ht); [vm_compute; reflexivity|].
    vm_compute in Hb. injection Hb as <-. rewrite Ht. vm_compute. reflexivity.
  - run md E.
    destruct (make_ia_metadata_title Sample.template ∅ Sample.range md E) as [Hs _].
    destruct Hs as (b & Hb & Ht); [vm_compute; reflexivity|].
    vm_compute in Hb. injection Hb as <-. rewrite Ht. vm_compute. reflexivity.
  - run md E.
    destruct (make_ia_metadata_title Sample.template ∅ Sample.titled md E) as [_ Hs].
    rewrite (Hs "On Coal"); [reflexivity|vm_compute; reflexivity|discriminate].
Defined.

Lemma make_ia_metadata_creator_witness :
  field (make_ia_metadata Sample.template ∅ Sample.full_name) "creator" =
    OK (Some (PStr "Smith, John")) ∧
  field (make_ia_metadata Sample.template ∅ Sample.string_name) "creator" =
    OK (Some (PStr "John Smith")) ∧
  field (make_ia_metadata Sample.template ∅ Sample.surname_only) "creator" =
    OK (Some (PStr "Smith")) ∧
  raises (make_ia_metadata Sample.template ∅ Sample.no_subfields) ∧
  field (make_ia_metadata Sample.template ∅ Sample.titled) "creator" = OK None.
Proof.
  split; [|split; [|split; [|split]]].
  - run md E.
    destruct (make_ia_metadata_creator Sample.template ∅ Sample.full_name) as [H _].
    pose (auth_md := py_dict [ ("stringname", "J. Smith"); ("surname", " Smith,");
                               ("givennames", "John ") ] : gmap string string).
    destruct (H md auth_md E) as (Ha & _); [vm_compute; reflexivity..|].
    rewrite (Ha " Smith," "John "); vm_compute; reflexivity.
  - run md E.
    destruct (make_ia_metadata_creator Sample.template ∅ Sample.string_name) as [H _].
    pose (auth_md := py_dict [ ("stringname", " John Smith ") ] : gmap string string).
    destruct (H md auth_md E) as (_ & Hb & _); [vm_compute; reflexivity..|].
    rewrite (Hb " John Smith "); [|vm_compute; reflexivity..|discriminate].
    vm_compute. reflexivity.
  - run md E.
    destruct (make_ia_metadata_creator Sample.template ∅ Sample.surname_only) as [H _].
    pose (auth_md := py_dict [ ("surname", "Smith,") ] : gmap string string).
    destruct (H md auth_md E) as (_ & _ & Hc); [vm_compute; reflexivity..|].
    rewrite (Hc "Smith,"); [|vm_compute; reflexivity..|discriminate].
    vm_compute. reflexivity.
  - destruct (make_ia_metadata_creator Sample.template ∅ Sample.no_subfields)
      as (_ & H & _).
    apply H; [vm_compute; reflexivity|].
    intros auth_md Ha.
    assert (Hg : field (make_auth_md (get Sample.no_subfields "authors")) "givennames"
                 = OK None) by (vm_compute; reflexivity).
    assert (Hn : field (make_auth_md (get Sample.no_subfields "authors")) "stringname"
                 = OK None) by (vm_compute; reflexivity).
    assert (Hs : field (make_auth_md (get Sample.no_subfields "authors")) "surname"
                 = OK None) by (vm_compute; reflexivity).
    rewrite Ha in Hg, Hn, Hs. injection Hg as Hg. injection Hn as Hn.
    injection Hs as Hs. unfold get_nonempty. by rewrite Hg, Hn, Hs.
  - run md E.
    destruct (make_ia_metadata_creator Sample.template ∅ Sample.titled)
      as (_ & _ & H).
    destruct (H ltac:(vm_compute; reflexivity)) as [_ Hn].
    by rewrite (Hn md E).
Defined.


Lemma make_ia_metadata_required_fields_witness :
  raises (make_ia_metadata Sample.template ∅ Sample.no_id) ∧
  field (make_ia_metadata Sample.template ∅ Sample.range) "collection" =
    OK (Some (PList [ IStr "jstor_acmej"; IStr "jstor_ejc";
                      IStr "additional_collections" ])).
Proof.
  split.
  - apply (make_ia_metadata_required_fields Sample.template ∅ Sample.no_id).
    left. vm_compute. reflexivity.
  - run md E.
    destruct (make_ia_metadata_required_fields Sample.template ∅ Sample.range)
      as [_ H].
    destruct (H md E) as (ja & Hja & Hc).
    vm_compute in Hja. injection Hja as <-. rewrite Hc. reflexivity.
Defined.

Lemma make_ia_metadata_no_title_no_pagerange_witness :
  Sample.no_pagerange !! "title" = None ∧
  Sample.no_pagerange !! "pagerange" = None ∧
  raises (make_ia_metadata Sample.template ∅ Sample.no_pagerange).
Proof.
  split; [vm_compute; reflexivity|]. split; [vm_compute; reflexivity|].
  apply make_ia_metadata_no_title_no_pagerange; vm_compute; reflexivity.
Defined.

Lemma parse_article_xml_entries_witness :
  (let r := parse_article_xml Sample.doc in
   field r "pages" = OK None ∧
   field r "title" = OK (Some (XStr "On Coal")) ∧
   field r "authors" =
     OK (Some (XList [ IDict "surname" "Smith"; IDict "givennames" "John" ]))) ∧
  raises (parse_article_xml Sample.doc_no_text).
Proof.
  split.
  - cbv zeta.
    assert (F : returns (parse_article_xml Sample.doc) = true)
      by (vm_compute; reflexivity).
    destruct (parse_article_xml Sample.doc) as [md|] eqn:E; [clear F|discriminate F].
    unfold field; simpl.
    destruct (parse_article_xml_entries Sample.doc) as [H _].
    destruct (H md E) as [Hdom Hval].
    split; [|split].
    + destruct (md !! "pages") eqn:Ep; [|reflexivity].
      destruct (Hdom "pages") as [Hp _].
      destruct Hp as [Hp _]; [rewrite Ep; eauto|]. by destruct Hp.
    + destruct (Hval (Sample.leaf "title" " On Coal ")) as [Hleaf _].
      * exists [], (tl (getchildren Sample.doc)). split; [reflexivity|].
        repeat constructor; discriminate.
      * discriminate.
      * destruct (Hleaf eq_refl) as (s & Hs & Hmd).
        injection Hs as <-. simpl in Hmd. rewrite Hmd. vm_compute. reflexivity.
    + destruct (Hval (Element "authors" None
                        [ Element "author" (Some " ")
                            [ Sample.leaf "surname" "Smith";
                              Sample.leaf "givennames" " John" ] ]))
        as [_ Hnode].
      * exists (firstn 2 (getchildren Sample.doc)), [Sample.leaf "pagerange" "5-9"].
        split; [reflexivity|]. repeat constructor; discriminate.
      * discriminate.
      * simpl in Hnode. rewrite Hnode; [|discriminate]. vm_compute. reflexivity.
  - destruct (parse_article_xml_entries Sample.doc_no_text) as [_ H].
    apply (H (Element "title" None [])); try reflexivity; try discriminate.
    apply list_elem_of_further, list_elem_of_here.
Defined.

Lemma modify_ia_metadata_patch_witness :
  modify_ia_metadata Sample.dumps Sample.content "jstor-123" Sample.title_x
      "metadata" (Sample.serving Sample.title_x) =
    (OK "No changes made to metadata.",
     send (Get "http://archive.org/metadata/jstor-123")
       (Sample.serving Sample.title_x)) ∧
  computed_patch Sample.title_x Sample.title_x = [] ∧
  computed_patch Sample.title_x Sample.title_y =
    [Operation "replace" "/title" (Some (JStr "Y"))].
Proof.
  destruct (modify_ia_metadata_patch Sample.dumps Sample.content "jstor-123"
              Sample.title_x "metadata" (Sample.serving Sample.title_x)
              "sig" "user" ltac:(vm_compute; reflexivity)
              ltac:(vm_compute; reflexivity)) as (_ & Hsame & _).
  destruct (modify_ia_metadata_patch Sample.dumps Sample.content "jstor-123"
              Sample.title_y "metadata" (Sample.serving Sample.title_x)
              "sig" "user" ltac:(vm_compute; reflexivity)
              ltac:(vm_compute; reflexivity)) as (_ & _ & Hone).
  destruct Hsame as [Hnil Hret]; [reflexivity|].
  destruct (Hone "title" "X" "Y") as [Hrep _];
    [vm_compute; reflexivity|reflexivity|discriminate|].
  split; [exact Hret|]. split; [exact Hnil|exact Hrep].
Defined.

(** * Further properties *)

(** ** The string primitives *)

Lemma rstrip_keep p a r :
  p a = false → Py.rstrip p (String a r) = String a (Py.rstrip p r).
Proof. intros H. simpl. rewrite H. by destruct (Py.rstrip p r). Qed.

Lemma rstrip_idem p s : Py.rstrip p (Py.rstrip p s) = Py.rstrip p s.
Proof.
  induction s as [|a r IH]; [done|]. simpl.
  destruct (Py.rstrip p r) as [|b r'] eqn:E.
  - destruct (p a) eqn:Ha; [done|]. simpl. by rewrite Ha.
  - simpl. simpl in IH. by rewrite IH.
Qed.

Lemma lstrip_head p s :
  Py.lstrip p s = EmptyString ∨
  ∃ a r, Py.lstrip p s = String a r ∧ p a = false.
Proof.
  induction s as [|a r IH]; [by left|]. simpl.
  destruct (p a) eqn:Ha; [done|]. right. eauto.
Qed.

Lemma strip_chars_idem p s :
  Py.strip_chars p (Py.strip_chars p s) = Py.strip_chars p s.
Proof.
  unfold Py.strip_chars.
  destruct (lstrip_head p s) as [->|(a & r & -> & Ha)]; [done|].
  rewrite (rstrip_keep _ _ _ Ha). simpl. rewrite Ha.
  rewrite <- (rstrip_keep _ _ _ Ha). apply rstrip_idem.
Qed.

Lemma strip_trimmed s : trimmed (Py.strip s).
Proof. apply strip_chars_idem. Qed.

Lemma contains_lstrip c p s :
  Py.contains c (Py.lstrip p s) = true → Py.contains c s = true.
Proof.
  induction s as [|a r IH]; simpl; [done|].
  destruct (p a); [|done]. intros H. rewrite (IH H). by destruct (Ascii.eqb a c).
Qed.

Lemma contains_rstrip c p s :
  Py.contains c (Py.rstrip p s) = true → Py.contains c s = true.
Proof.
  induction s as [|a r IH]; simpl; [done|].
  destruct (Py.rstrip p r) as [|b r'] eqn:E.
  - destruct (p a); simpl; [done|]. by destruct (Ascii.eqb a c).
  - simpl. destruct (Ascii.eqb a c); [done|]. exact IH.
Qed.

Lemma contains_strip c s :
  Py.contains c s = false → Py.contains c (Py.strip s) = false.
Proof.
  intros H. destruct (Py.contains c (Py.strip s)) eqn:E; [|done].
  apply contains_rstrip, contains_lstrip in E. congruence.
Qed.

Lemma remove_newlines_none s :
  Py.contains Py.newline (Py.remove_newlines s) = false.
Proof.
  induction s as [|a r IH]; simpl; [done|].
  destruct (Ascii.eqb a Py.newline) eqn:Ha; [done|]. simpl. by rewrite Ha.
Qed.

Lemma split_parts c s : Forall (λ x, Py.contains c x = false) (Py.split c s).
Proof.
  induction s as [|a r IH]; simpl; [by constructor|].
  destruct (Ascii.eqb a c) eqn:Ha; [by constructor|].
  destruct (Py.split c r) as [|h t]; [constructor; [simpl; by rewrite Ha|done]|].
  apply Forall_cons in IH as [Hh Ht]. constructor; [|done].
  simpl. by rewrite Ha.
Qed.

Lemma split_not_nil c s : Py.split c s ≠ [].
Proof.
  destruct s as [|a r]; simpl; [done|].
  destruct (Ascii.eqb a c); [done|]. by destruct (Py.split c r).
Qed.

Lemma split_whole c s : Py.contains c s = false → Py.split c s = [s].
Proof.
  induction s as [|a r IH]; simpl; [done|].
  destruct (Ascii.eqb a c); [done|]. intros H. by rewrite IH.
Qed.

Lemma split_app c a b :
  Py.split c (a +:+ String c b) = (Py.split c a ++ Py.split c b)%list.
Proof.
  induction a as [|x a IH]; simpl.
  - by rewrite Ascii.eqb_refl.
  - destruct (Ascii.eqb x c); [by rewrite IH|].
    rewrite IH. pose proof (split_not_nil c a).
    by destruct (Py.split c a).
Qed.

Lemma last_part_no_sep c s :
  Py.contains c (Py.last_part (Py.split c s)) = false.
Proof.
  pose proof (split_parts c s) as H. pose proof (split_not_nil c s) as Hne.
  unfold Py.last_part. induction (Py.split c s) as [|x l IH]; [done|].
  apply Forall_cons in H as [Hx Hl]. destruct l as [|y l]; [done|].
  by apply IH.
Qed.

(** ** The parser, beyond its entries *)

Lemma mapM_raises {A B : Type} (f : A → result B) (l : list A) a :
  a ∈ l → raises (f a) → raises (mapM f l).
Proof.
  intros Ha Hf. induction l as [|x l IH]; [by apply elem_of_nil in Ha|].
  simpl. apply elem_of_cons in Ha as [<-|Ha].
  - by apply rbind_raises.
  - apply rbind_raises_after. intros y _. apply rbind_raises. by apply IH.
Qed.

Lemma mapM_ext {A B : Type} (f g : A → result B) (l : list A) :
  (∀ a, f a = g a) → mapM f l = mapM g l.
Proof. intros H. induction l as [|x l IH]; simpl; [done|]. by rewrite H, IH. Qed.

Lemma mapM_map {A B C : Type} (f : B → result C) (g : A → B) (l : list A) :
  mapM f (map g l) = mapM (λ a, f (g a)) l.
Proof. induction l as [|x l IH]; simpl; [done|]. by rewrite IH. Qed.

(** X1.  A grandchild element without text makes the parser raise: for
    an element other than ['pages'] with children, the text of every
    grandchild is read and stripped, and [None] has no [strip]. *)
Theorem parse_article_xml_grandchild_without_text root e child x :
  e ∈ getchildren root → tag e ≠ "pages" →
  child ∈ getchildren e → x ∈ getchildren child → text x = None →
  raises (parse_article_xml root).
Proof.
  intros He Hp Hc Hx Ht. unfold parse_article_xml.
  apply foldM_parse_step_raises with e.
  - apply list_elem_of_In, List.filter_In. split; [by apply list_elem_of_In|].
    by apply negb_true_iff, String.eqb_neq.
  - unfold element_value. destruct (getchildren e) as [|c cs] eqn:E;
      [by apply elem_of_nil in Hc|].
    apply rbind_raises, (mapM_raises _ _ child Hc).
    unfold child_entries. apply rbind_raises, (mapM_raises _ _ x Hx).
    unfold text_strip. rewrite Ht. by exists AttributeError.
Qed.

Lemma element_value_trimmed e v : element_value e = OK v → trimmed_value v.
Proof.
  intros H. destruct (getchildren e) as [|c cs] eqn:E.
  - rewrite (element_value_leaf _ E) in H.
    destruct (text e); [|done]. injection H as <-. apply strip_trimmed.
  - apply element_value_node in H as [-> _]; [|by rewrite E].
    simpl. generalize (getchildren e). intros l.
    induction l as [|y l IH]; [constructor|].
    change (flat_map child_sequence (y :: l))
      with (child_sequence y ++ flat_map child_sequence l)%list.
    apply Forall_app. split; [|done].
    unfold child_sequence. apply Forall_app. split.
    + case_decide; [constructor|]. constructor; [|constructor].
      split; [apply strip_trimmed|done].
    + apply Forall_forall. intros i Hi.
      apply list_elem_of_In, in_map_iff in Hi as (z & <- & _). apply strip_trimmed.
Qed.

Lemma foldM_parse_step_value md l md' t v :
  foldM parse_step md l = OK md' → md' !! t = Some v →
  md !! t = Some v ∨ ∃ e, e ∈ l ∧ element_value e = OK v.
Proof.
  revert md. induction l as [|x l IH]; simpl; intros md H Ht.
  - injection H as <-. by left.
  - inv_bind H. destruct (IH _ H Ht) as [Hs|(e & He & Hv)].
    + unfold parse_step in Ha. inv_bind Ha. injection Ha as <-.
      destruct (decide (tag x = t)) as [Hx|Hx].
      * rewrite Hx, lookup_insert_eq in Hs. injection Hs as ->.
        right. exists x. split; [apply list_elem_of_here|done].
      * left. by rewrite lookup_insert_ne in Hs.
    + right. exists e. split; [by apply list_elem_of_further|done].
Qed.

(** X2.  Every text in the mapping [parse_article_xml] returns is
    trimmed: a string value, a string entry of a list and the value of a
    one-key entry have no surrounding whitespace, and a string entry of a
    list is never empty. *)
Theorem parse_article_xml_trimmed root md t v :
  parse_article_xml root = OK md → md !! t = Some v → trimmed_value v.
Proof.
  unfold parse_article_xml. intros H Ht.
  destruct (foldM_parse_step_value _ _ _ _ _ H Ht) as [Hs|(e & _ & Hv)].
  - by rewrite lookup_empty in Hs.
  - by apply element_value_trimmed in Hv.
Qed.

Lemma foldM_map_ext {A S : Type} (f : S → A → result S) (g : A → A) s l :
  (∀ s a, f s (g a) = f s a) → foldM f s (map g l) = foldM f s l.
Proof.
  intros H. revert s. induction l as [|x l IH]; intros s; simpl; [done|].
  rewrite H. destruct (f s x); simpl; [apply IH|done].
Qed.

Lemma tag_top_view e : tag (top_view e) = tag e.
Proof. unfold top_view. by destruct (getchildren e). Qed.

Lemma child_entries_view child : child_entries (child_view child) = child_entries child.
Proof.
  unfold child_entries. simpl. by rewrite mapM_map.
Qed.

Lemma element_value_view e : element_value (top_view e) = element_value e.
Proof.
  unfold top_view, element_value at 2.
  destruct (getchildren e) as [|c cs] eqn:E; [done|].
  unfold element_value. simpl. rewrite child_entries_view.
  rewrite (mapM_map child_entries child_view cs).
  by rewrite (mapM_ext _ child_entries cs child_entries_view).
Qed.

(** X3.  What the parser does not read: the ['pages'] elements,
    anything below the grandchildren of the top-level elements, the text
    of a top-level element that has children, and the root's own tag and
    text.  A document and its [shallow] part parse alike. *)
Theorem parse_article_xml_shallow root :
  parse_article_xml (shallow root) = parse_article_xml root.
Proof.
  unfold parse_article_xml, shallow. simpl.
  generalize (getchildren root). intros l.
  assert (List.filter (λ e, negb (String.eqb (tag e) "pages"))
            (map top_view
               (List.filter (λ e, negb (String.eqb (tag e) "pages")) l)) =
          map top_view (List.filter (λ e, negb (String.eqb (tag e) "pages")) l))
    as ->.
  { induction l as [|x l IH]; simpl; [done|].
    destruct (negb (String.eqb (tag x) "pages")) eqn:Hx; [|done].
    simpl. rewrite tag_top_view, Hx. by rewrite IH. }
  apply foldM_map_ext. intros md e. unfold parse_step.
  by rewrite element_value_view, tag_top_view.
Qed.

(** ** The synthesizer, field by field *)

Section SynthesizerFields.

Variable render : gmap string pval → string.
Variable file_md : gmap string string.

Lemma initial_md_OK xml_md md :
  initial_md xml_md = OK md →
  ∃ id journalabbrv,
    xml_md !! "id" = Some (XStr id) ∧
    xml_md !! "journalabbrv" = Some journalabbrv ∧
    md = py_dict
        [ ("identifier", PStr ("jstor-" +:+ Py.last_part (Py.split Py.slash id)));
          ("mediatype", PStr "texts");
          ("publisher", get xml_md "journaltitle");
          ("contributor", PStr "JSTOR");
          ("collection",
            PList [ IStr ("jstor_" +:+ format (of_xval journalabbrv));
                    IStr "jstor_ejc";
                    IStr "additional_collections" ]);
          ("date", get xml_md "pubdate");
          ("volume", get xml_md "volume");
          ("pagerange", get xml_md "pagerange");
          ("issn", get xml_md "issn");
          ("source", PStr ("http://www.jstor.org/stable/" +:+ id));
          ("article_type", get xml_md "type");
          ("journaltitle", get xml_md "journaltitle");
          ("journalabbrv", of_xval journalabbrv) ].
Proof.
  unfold initial_md. intros H. inv_bind H. inv_bind H. injection H as <-.
  unfold split_method in Ha. unfold get in Ha at 1.
  destruct (xml_md !! "id") as [[id|l]|] eqn:Hid; try discriminate.
  injection Ha as <-.
  unfold getitem in Ha0.
  destruct (xml_md !! "journalabbrv") as [ja|] eqn:Hja; [|discriminate].
  injection Ha0 as <-.
  exists id, ja. split; [done|]. split; [done|].
  assert (get xml_md "id" = PStr id) as -> by (unfold get; by rewrite Hid).
  done.
Qed.

(** A key that only the [dict(...)] literal sets keeps its value when
    that is truthy. *)
Lemma make_ia_metadata_kept xml_md r :
  make_ia_metadata render file_md xml_md = OK r →
  ∃ md0,
    initial_md xml_md = OK md0 ∧
    ∀ k, k ≠ "title" → k ≠ "description" → k ≠ "creator" → k ≠ "language" →
         k ≠ "external-identifier" → k ≠ "imagecount" →
         r !! k = keep (md0 !! k).
Proof.
  intros H.
  apply make_ia_metadata_inv in H
    as (md0 & md1 & md2 & md3 & md4 & H0 & H1 & H2 & H3 & H4 & H5).
  exists md0. split; [done|]. intros k ? ? ? ? ? ?.
  apply finish_lookup in H5 as (_ & _ & _ & ->); [|done..].
  rewrite (set_imagecount_other _ _ _ _ H4) by done.
  rewrite set_external_identifier_other by done.
  rewrite (set_language_other _ _ _ _ H3) by done.
  rewrite (set_creator_other _ _ _ _ H2) by done.
  by rewrite (set_title_other _ _ _ _ H1).
Qed.

(** X4.  Every object [make_ia_metadata] returns has the identifier
    ["jstor-"] followed by the part of the record id after its last
    ['/'], a part that holds no ['/']; it has the media type ["texts"],
    the contributor ["JSTOR"] and the source URL of the whole id. *)
Theorem make_ia_metadata_identifier xml_md md :
  make_ia_metadata render file_md xml_md = OK md →
  ∃ id,
    xml_md !! "id" = Some (XStr id) ∧
    md !! "identifier" =
      Some (PStr ("jstor-" +:+ Py.last_part (Py.split Py.slash id))) ∧
    Py.contains Py.slash (Py.last_part (Py.split Py.slash id)) = false ∧
    (Py.contains Py.slash id = false → md !! "identifier" = Some (PStr ("jstor-" +:+ id))) ∧
    md !! "mediatype" = Some (PStr "texts") ∧
    md !! "contributor" = Some (PStr "JSTOR") ∧
    md !! "source" = Some (PStr ("http://www.jstor.org/stable/" +:+ id)).
Proof.
  intros H. apply make_ia_metadata_kept in H as (md0 & H0 & Hk).
  apply initial_md_OK in H0 as (id & ja & Hid & _ & ->).
  exists id. rewrite !Hk by done. unfold py_dict; simpl.
  split; [done|]. split; [by lookup_lit|].
  split; [apply last_part_no_sep|].
  split; [|by lookup_lit].
  intros Hs. rewrite (split_whole _ _ Hs). by lookup_lit.
Qed.

(** X5.  The fields copied from the record: in a returned object the
    publisher and the journal title are the record's ['journaltitle'],
    the date its ['pubdate'], the article type its ['type'], and volume,
    page range, ISSN and journal abbreviation are the fields of the same
    name; each is present exactly when the record's value is truthy. *)
Theorem make_ia_metadata_copied_fields xml_md md :
  make_ia_metadata render file_md xml_md = OK md →
  md !! "publisher" = keep (Some (get xml_md "journaltitle")) ∧
  md !! "journaltitle" = keep (Some (get xml_md "journaltitle")) ∧
  md !! "date" = keep (Some (get xml_md "pubdate")) ∧
  md !! "article_type" = keep (Some (get xml_md "type")) ∧
  md !! "volume" = keep (Some (get xml_md "volume")) ∧
  md !! "pagerange" = keep (Some (get xml_md "pagerange")) ∧
  md !! "issn" = keep (Some (get xml_md "issn")) ∧
  md !! "journalabbrv" = keep (Some (get xml_md "journalabbrv")).
Proof.
  intros H. apply make_ia_metadata_kept in H as (md0 & H0 & Hk).
  apply initial_md_OK in H0 as (id & ja & _ & Hja & ->).
  rewrite !Hk by done. unfold py_dict; simpl.
  assert (get xml_md "journalabbrv" = of_xval ja) as ->
    by (unfold get; by rewrite Hja).
  repeat split; by lookup_lit.
Qed.

End SynthesizerFields.

Section SynthesizerSteps.

Variable render : gmap string pval → string.
Variable file_md : gmap string string.

Lemma make_ia_metadata_raises_language xml_md :
  (∀ md2, raises (set_language xml_md md2)) →
  raises (make_ia_metadata render file_md xml_md).
Proof.
  intros H. unfold make_ia_metadata.
  apply rbind_raises_after; intros md0 _.
  apply rbind_raises_after; intros md1 _.
  apply rbind_raises_after; intros md2 _.
  by apply rbind_raises.
Qed.

Lemma make_ia_metadata_raises_imagecount xml_md :
  (∀ md, raises (set_imagecount xml_md md)) →
  raises (make_ia_metadata render file_md xml_md).
Proof.
  intros H. unfold make_ia_metadata.
  apply rbind_raises_after; intros md0 _.
  apply rbind_raises_after; intros md1 _.
  apply rbind_raises_after; intros md2 _.
  apply rbind_raises_after; intros md3 _.
  by apply rbind_raises.
Qed.

(** The keys set after the creator, in a returned object. *)
Lemma make_ia_metadata_late_keys xml_md r :
  make_ia_metadata render file_md xml_md = OK r →
  ∃ md2 md3 md4 title,
    md2 !! "language" = None ∧
    set_language xml_md md2 = OK md3 ∧
    r !! "language" = keep (md3 !! "language") ∧
    r !! "external-identifier" =
      keep (set_external_identifier xml_md md3 !! "external-identifier") ∧
    md4 !! "title" = Some title ∧
    r !! "description" =
      keep (Some (PStr (Py.strip (Py.remove_newlines
                          (render (<["title" := PStr (format title)]> md4)))))).
Proof.
  intros H.
  apply make_ia_metadata_inv in H
    as (md0 & md1 & md2 & md3 & md4 & H0 & H1 & H2 & H3 & H4 & H5).
  pose proof (finish_lookup _ _ _ H5) as (title & Ht & _ & Hr).
  exists md2, md3, md4, title.
  rewrite (Hr "language"), (Hr "external-identifier") by done.
  rewrite (set_imagecount_other _ _ _ "language" H4) by done.
  rewrite (set_imagecount_other _ _ _ "external-identifier" H4) by done.
  rewrite (set_external_identifier_other _ _ "language") by done.
  split.
  { rewrite (set_creator_other _ _ _ _ H2), (set_title_other _ _ _ _ H1) by done.
    apply initial_md_OK in H0 as (id & ja & _ & _ & ->).
    unfold py_dict; simpl. by lookup_lit. }
  do 4 (split; [done|]).
  unfold finish in H5. inv_bind H5. injection H5 as <-.
  unfold getitem in Ha. rewrite Ht in Ha. injection Ha as <-.
  rewrite map_lookup_filter, lookup_insert_eq. simpl.
  by destruct (Py.strip _).
Qed.

(** X6.  The language of a returned object is the first entry of the
    record's ['languages'] list, trimmed; without a ['languages'] field,
    or with an empty one, the object has no language.  When the field is
    a plain string the language is its first character only, and when
    the first entry of the list is a one-key mapping the call raises. *)
Theorem make_ia_metadata_language xml_md :
  (∀ md, make_ia_metadata render file_md xml_md = OK md →
     (truthy (get xml_md "languages") = false → md !! "language" = None) ∧
     (∀ s rest, xml_md !! "languages" = Some (XList (IStr s :: rest)) →
        md !! "language" = keep (Some (PStr (Py.strip s)))) ∧
     (∀ c s, xml_md !! "languages" = Some (XStr (String c s)) →
        md !! "language" = keep (Some (PStr (Py.strip (String c EmptyString)))))) ∧
  (∀ k v rest, xml_md !! "languages" = Some (XList (IDict k v :: rest)) →
     raises (make_ia_metadata render file_md xml_md)).
Proof.
  split.
  - intros md H.
    apply make_ia_metadata_late_keys in H
      as (md2 & md3 & md4 & t & Hn & Hl & -> & _).
    unfold set_language in Hl. split; [|split].
    + intros Hf. rewrite Hf in Hl. injection Hl as <-. by rewrite Hn.
    + intros s rest Hx. unfold get in Hl. rewrite Hx in Hl. simpl in Hl.
      injection Hl as <-. by rewrite lookup_insert_eq.
    + intros c s Hx. unfold get in Hl. rewrite Hx in Hl. simpl in Hl.
      injection Hl as <-. by rewrite lookup_insert_eq.
  - intros k v rest Hx. apply make_ia_metadata_raises_language. intros md2.
    unfold set_language, get. rewrite Hx. simpl. by exists AttributeError.
Qed.

(** X7.  The description of a returned object is a non-empty string
    without a line break and without surrounding whitespace, whatever the
    template renders. *)
Theorem make_ia_metadata_description xml_md md v :
  make_ia_metadata render file_md xml_md = OK md →
  md !! "description" = Some v →
  ∃ d, v = PStr d ∧ d ≠ EmptyString ∧ trimmed d ∧
       Py.contains Py.newline d = false.
Proof.
  intros H Hv.
  apply make_ia_metadata_late_keys in H
    as (md2 & md3 & md4 & t & _ & _ & _ & _ & _ & Hd).
  rewrite Hd in Hv. simpl in Hv.
  destruct (Py.strip _) as [|c d] eqn:E; [done|].
  injection Hv as <-. exists (String c d). split; [done|]. split; [done|].
  rewrite <- E. split; [apply strip_trimmed|].
  apply contains_strip, remove_newlines_none.
Qed.

(** X8.  An authors field that is a non-empty string, or a list that
    holds a text entry (an author element with text of its own), makes
    [make_ia_metadata] raise: only one-key mappings are read. *)
Theorem make_ia_metadata_authors_text xml_md :
  (∃ c s, xml_md !! "authors" = Some (XStr (String c s))) ∨
  (∃ l s, xml_md !! "authors" = Some (XList l) ∧ IStr s ∈ l) →
  raises (make_ia_metadata render file_md xml_md).
Proof.
  intros H. apply make_ia_metadata_raises_creator. intros md1.
  unfold set_creator, get.
  destruct H as [(c & s & ->)|(l & s & -> & Hs)]; simpl.
  - by exists AttributeError.
  - destruct l as [|i l]; [by apply elem_of_nil in Hs|]. simpl.
    apply rbind_raises. unfold make_auth_md. apply rbind_raises.
    apply (mapM_raises _ (i :: l) (IStr s) Hs). by exists AttributeError.
Qed.

(** X9.  A page range that the parser read as a non-empty list makes
    [make_ia_metadata] raise: the image count step calls [split] on it. *)
Theorem make_ia_metadata_pagerange_list xml_md i l :
  xml_md !! "pagerange" = Some (XList (i :: l)) →
  raises (make_ia_metadata render file_md xml_md).
Proof.
  intros Hx. apply make_ia_metadata_raises_imagecount. intros md.
  unfold set_imagecount, get, getitem. rewrite Hx. simpl.
  by exists AttributeError.
Qed.

End SynthesizerSteps.


Lemma mapM_app {A B : Type} (f : A → result B) (l1 l2 : list A) :
  mapM f (l1 ++ l2) =
    do a <- mapM f l1; do b <- mapM f l2; OK (a ++ b)%list.
Proof.
  induction l1 as [|x l1 IH]; simpl.
  - by destruct (mapM f l2).
  - destruct (f x); simpl; [|done]. rewrite IH.
    destruct (mapM f l1); simpl; [|done]. by destruct (mapM f l2).
Qed.

Section SynthesizerLists.

Variable render : gmap string pval → string.
Variable file_md : gmap string string.


(** X11.  With several authors the creator is built from the last one:
    when the authors list ends with a surname and given names, the
    creator of a returned object is "Surname, GivenNames" of these two,
    whatever entries come before them. *)
Theorem make_ia_metadata_last_author xml_md md earlier surname givennames :
  xml_md !! "authors" =
    Some (XList (earlier ++ [IDict "surname" surname;
                             IDict "givennames" givennames])) →
  make_ia_metadata render file_md xml_md = OK md →
  md !! "creator" =
    Some (PStr (Py.strip_sc surname +:+ ", " +:+ Py.strip_sc givennames)).
Proof.
  intros Hx H.
  apply make_ia_metadata_run in H
    as (md0 & md1 & md2 & md3 & md4 & t & _ & _ & Hc & _ & _ & _ & -> & _).
  assert (truthy (get xml_md "authors") = true) as Ht.
  { unfold get. rewrite Hx. by destruct earlier. }
  destruct (make_auth_md (get xml_md "authors")) as [auth_md|e] eqn:Ha.
  - rewrite (set_creator_authors _ _ _ Ht Ha) in Hc.
    unfold make_auth_md, get in Ha. rewrite Hx in Ha. simpl in Ha.
    rewrite mapM_app in Ha. inv_bind Ha. injection Ha as <-.
    inv_bind Ha0. simpl in Ha0. injection Ha0 as <-.
    assert (py_dict (a0 ++ [("surname", surname); ("givennames", givennames)]) =
            <["givennames" := givennames]> (<["surname" := surname]> (py_dict a0)))
      as Hd by (unfold py_dict; by rewrite foldl_app).
    rewrite Hd in Hc.
    rewrite lookup_insert_eq in Hc. unfold getitem in Hc.
    rewrite lookup_insert_ne, lookup_insert_eq in Hc by done. simpl in Hc.
    injection Hc as <-. rewrite lookup_insert_eq. unfold keep.
    by rewrite truthy_comma.
  - unfold set_creator in Hc. by rewrite Ht, Ha in Hc.
Qed.

End SynthesizerLists.

(** ** The reconciler, beyond one changed title *)

Lemma Forall_flat_map {A B : Type} (P : B → Prop) (f : A → list B) (l : list A) :
  (∀ x, x ∈ l → Forall P (f x)) → Forall P (flat_map f l).
Proof.
  induction l as [|x l IH]; simpl; intros H; [constructor|].
  apply Forall_app. split; [apply H, list_elem_of_here|].
  apply IH. intros y Hy. by apply H, list_elem_of_further.
Qed.

Lemma flat_map_nil_inv {A B : Type} (f : A → list B) (l : list A) x :
  flat_map f l = [] → x ∈ l → f x = [].
Proof.
  induction l as [|y l IH]; simpl; intros H Hx; [by apply elem_of_nil in Hx|].
  apply app_eq_nil in H as [Hy Hl].
  apply elem_of_cons in Hx as [->|Hx]; [done|by apply IH].
Qed.

Lemma compare_list_nil path idx src dst :
  JsonPatch.compare_list path idx src dst = [] → src = dst.
Proof.
  revert idx dst. induction src as [|v src IH]; intros idx [|w dst]; simpl; try done.
  - intros H. apply (f_equal length) in H.
    rewrite length_app in H. simpl in H. lia.
  - intros H. apply app_eq_nil in H as [Hv Hr].
    destruct (decide (v = w)) as [->|]; [|done]. by rewrite (IH _ _ Hr).
Qed.

Lemma compare_values_nil path v other :
  JsonPatch.compare_values path v other = [] → v = other.
Proof.
  unfold JsonPatch.compare_values. destruct (decide (v = other)); [done|].
  destruct v, other; try done. intros H. by rewrite (compare_list_nil _ _ _ _ H).
Qed.

Lemma computed_patch_nil src metadata :
  metadata ⊆ src → computed_patch src metadata = [].
Proof.
  intros Hsub. unfold computed_patch.
  rewrite py_dict_items, (map_subseteq_union _ _ Hsub). apply make_patch_same.
Qed.

Lemma computed_patch_nil_inv src metadata :
  computed_patch src metadata = [] → metadata ⊆ src.
Proof.
  unfold computed_patch. rewrite py_dict_items.
  unfold JsonPatch.make_patch, JsonPatch.compare_dict. intros H.
  apply app_eq_nil in H as [Hs Hd].
  apply map_subseteq_spec. intros k v Hk.
  assert ((metadata ∪ src) !! k = Some v) as Hu
    by (by apply lookup_union_Some_l).
  destruct (src !! k) as [v0|] eqn:Hv0.
  - apply elem_of_map_to_list in Hv0 as Hin.
    apply (flat_map_nil_inv _ _ _ Hs) in Hin. simpl in Hin.
    rewrite Hu in Hin. by rewrite (compare_values_nil _ _ _ Hin).
  - apply elem_of_map_to_list in Hu as Hin.
    apply (flat_map_nil_inv _ _ _ Hd) in Hin. simpl in Hin.
    by rewrite Hv0 in Hin.
Qed.


Lemma compare_dict_overlay path src metadata :
  (∀ k v, metadata !! k = Some v → ∃ s, v = JStr s) →
  Forall (λ o, is_Some (value o) ∧ (op o = "replace" ∨ op o = "add"))
         (JsonPatch.compare_dict path src (metadata ∪ src)).
Proof.
  intros Hm. unfold JsonPatch.compare_dict. apply Forall_app. split.
  - apply Forall_flat_map. intros [k v] Hkv. simpl.
    apply elem_of_map_to_list in Hkv. rewrite lookup_union, Hkv.
    destruct (metadata !! k) as [y|] eqn:Hy; simpl.
    + destruct (Hm _ _ Hy) as [s ->]. unfold JsonPatch.compare_values.
      case_decide; [constructor|].
      destruct v; (constructor; [|constructor]); simpl; eauto.
    + rewrite compare_values_same. constructor.
  - apply Forall_flat_map. intros [k v] Hkv. simpl.
    destruct (src !! k); [constructor|].
    constructor; [|constructor]. simpl. eauto.
Qed.

Lemma mapM_flatten_values l :
  Forall (λ o, is_Some (value o)) l → returns (mapM flatten l) = true.
Proof.
  induction l as [|o l IH]; simpl; intros H; [done|].
  apply Forall_cons in H as [[v Hv] Hl]. unfold flatten at 1. rewrite Hv. simpl.
  specialize (IH Hl). by destruct (mapM flatten l).
Qed.

Section ReconcilerCalls.

Variable dumps : list (gmap string json) → string.
Variable content : request → string.

(** X13.  An overlay whose values are all strings is always
    translated: with the credentials in the environment the call returns,
    every operation of its patch is a [replace] or an [add] that carries a
    value, and the requests sent are the read, followed by one patch
    request exactly when the remote metadata does not already hold the
    overlay. *)
Theorem modify_ia_metadata_string_overlay identifier metadata target w sig user :
  environ w !! "LOGGED_IN_SIG" = Some sig →
  environ w !! "LOGGED_IN_USER" = Some user →
  (∀ k v, metadata !! k = Some v → ∃ s, v = JStr s) →
  let url := "http://archive.org/metadata/" +:+ identifier in
  let src := default ∅ (remote w url !! target) in
  let call := modify_ia_metadata dumps content identifier metadata target w in
  returns call.1 = true ∧
  Forall (λ o, is_Some (value o) ∧ (op o = "replace" ∨ op o = "add"))
         (computed_patch src metadata) ∧
  (metadata ⊆ src → sent call.2 = (sent w ++ [Get url])%list) ∧
  (¬ metadata ⊆ src →
   ∃ params cookies,
     sent call.2 = (sent w ++ [Get url; Patch url params cookies])%list).
Proof.
  intros Hs Hu Hm url src call.
  assert (Forall (λ o, is_Some (value o) ∧ (op o = "replace" ∨ op o = "add"))
            (computed_patch src metadata)) as Hall.
  { unfold computed_patch. rewrite py_dict_items. by apply compare_dict_overlay. }
  assert (returns (mapM flatten (computed_patch src metadata)) = true) as Hret.
  { apply mapM_flatten_values. eapply Forall_impl; [exact Hall|]. by intros o [? _]. }
  unfold call. rewrite (modify_ia_metadata_run _ _ _ _ _ _ _ _ Hs Hu).
  fold url src.
  destruct (mapM flatten (computed_patch src metadata)) as [patch|] eqn:E;
    [|done].
  split; [by destruct patch|]. split; [done|]. split.
  - intros Hsub. apply computed_patch_nil in Hsub. rewrite Hsub in E.
    injection E as <-. done.
  - intros Hsub. destruct patch as [|p patch].
    + exfalso. apply Hsub, computed_patch_nil_inv.
      destruct (computed_patch src metadata) as [|o l]; [done|].
      simpl in E. destruct (flatten o); [|done]. simpl in E.
      by destruct (mapM flatten l).
    + eexists _, _. simpl. by rewrite <- app_assoc.
Qed.

End ReconcilerCalls.

(** ** The submission loop, round by round *)

(** X14.  A run without interrupts: the articles with an XML file are
    submitted in order, each with its reporting callback; one "No XML
    file" line is printed for each of the others; and the loop ends
    normally.  Of [N] articles of which [K] lack the XML file, [N - K] are
    submitted and [K] are skipped. *)
Theorem submission_loop_uninterrupted articles st :
  let with_xml := List.filter (λ pdf, negb (lacks_xml pdf)) articles in
  let without := List.filter lacks_xml articles in
  submission_loop (uninterrupted articles) st =
    (Pool (submitted st ++ map (λ pdf, UnitOfWork pdf true) with_xml)
          (printed st ++
           map (λ pdf, "No XML file:" +:+ tab +:+ format_opt (pdf !! "articleid"))
               without),
     None) ∧
  (length with_xml + length without = length articles)%nat.
Proof.
  simpl. split.
  - revert st. induction articles as [|pdf l IH]; intros st; simpl.
    + rewrite !app_nil_r. by destruct st.
    + rewrite IH. unfold try_body. destruct (lacks_xml pdf); simpl;
        by rewrite <- !app_assoc.
  - induction articles as [|pdf l IH]; simpl; [done|].
    destruct (lacks_xml pdf); simpl; lia.
Qed.

(** X15.  Whatever interrupts arrive, the loop only adds to what was
    submitted and printed before; every unit it submits is an article of
    one of the rounds that has an XML file; and it submits at most one
    unit per round. *)
Theorem submission_loop_submits rounds st :
  let st' := (submission_loop rounds st).1 in
  ∃ units lines,
    submitted st' = (submitted st ++ units)%list ∧
    printed st' = (printed st ++ lines)%list ∧
    Forall (λ u, lacks_xml (article u) = false ∧
                 ∃ i, (article u, i) ∈ rounds) units ∧
    (length units + length lines ≤ length rounds)%nat.
Proof.
  simpl. revert st. induction rounds as [|[pdf i] rounds IH]; intros st.
  - exists [], []. simpl. rewrite !app_nil_r. repeat split; [constructor|lia].
  - assert (∀ st1 units1 lines1,
              submitted st1 = (submitted st ++ units1)%list →
              printed st1 = (printed st ++ lines1)%list →
              Forall (λ u, lacks_xml (article u) = false ∧ article u = pdf) units1 →
              (length units1 + length lines1 ≤ 1)%nat →
              ∃ units lines,
                submitted (submission_loop rounds st1).1 = (submitted st ++ units)%list ∧
                printed (submission_loop rounds st1).1 = (printed st ++ lines)%list ∧
                Forall (λ u, lacks_xml (article u) = false ∧
                             ∃ j, (article u, j) ∈ (pdf, i) :: rounds) units ∧
                (length units + length lines ≤ S (length rounds))%nat) as Hstep.
    { intros st1 units1 lines1 Hs Hp Hu Hlen.
      destruct (IH st1) as (units & lines & Hs' & Hp' & Hall & Hl).
      exists (units1 ++ units)%list, (lines1 ++ lines)%list.
      rewrite Hs', Hp', Hs, Hp, <- !app_assoc. repeat split.
      - apply Forall_app. split.
        + eapply Forall_impl; [exact Hu|]. intros u [Hx Hpdf]. split; [exact Hx|].
          exists i. rewrite Hpdf. apply list_elem_of_here.
        + eapply Forall_impl; [exact Hall|]. intros u [Hx [j Hj]]. split; [exact Hx|].
          exists j. by apply list_elem_of_further.
      - rewrite !length_app. lia. }
    destruct i; simpl; unfold try_body; try destruct (lacks_xml pdf) eqn:Hx; simpl;
      try (exists [], []; simpl; rewrite !app_nil_r;
           repeat split; [constructor|lia]);
      first
        [ eapply (Hstep _ [] [_]); simpl; rewrite ?app_nil_r;
          first [done | lia | constructor]
        | eapply (Hstep _ [UnitOfWork pdf true] []); simpl; rewrite ?app_nil_r;
          first [done | lia | (repeat constructor; done)]
        | eapply (Hstep _ [UnitOfWork pdf false] []); simpl; rewrite ?app_nil_r;
          first [done | lia | (repeat constructor; done)]
        | eapply (Hstep _ [] []); simpl; rewrite ?app_nil_r;
          first [done | lia | constructor] ].
Qed.

(** X16.  An interrupt raised while the iterator produces an article
    ends the loop there: that article and all later ones are neither
    submitted nor reported as skipped, and the [KeyboardInterrupt] leaves
    the loop. *)
Theorem submission_loop_iterator_interrupt_stops before pdf after st :
  Forall (λ round : gmap string string * interrupt, round.2 ≠ InIterator) before →
  submission_loop (before ++ (pdf, InIterator) :: after) st =
    ((submission_loop before st).1, Some KeyboardInterrupt).
Proof.
  intros H. revert st. induction before as [|[p i] l IH]; intros st; [done|].
  apply Forall_cons in H as [Hi Hl]. simpl in Hi.
  destruct i; simpl; try done; by apply IH.
Qed.

(** ** The file iterator *)

Lemma contains_app_r c a b :
  Py.contains c b = true → Py.contains c (a +:+ b) = true.
Proof.
  intros H. induction a as [|x a IH]; simpl; [done|].
  by destruct (Ascii.eqb x c).
Qed.

Lemma contains_app_l c a b :
  Py.contains c a = true → Py.contains c (a +:+ b) = true.
Proof.
  induction a as [|x a IH]; simpl; [done|].
  by destruct (Ascii.eqb x c).
Qed.

Lemma starts_with_contains c s : starts_with c s = true → Py.contains c s = true.
Proof. destruct s as [|a r]; simpl; [done|]. by intros ->. Qed.

Lemma ends_with_contains c s : ends_with c s = true → Py.contains c s = true.
Proof.
  induction s as [|a r IH]; simpl; [done|].
  destruct r as [|b r]; [by intros ->|].
  intros H. rewrite (IH H). by destruct (Ascii.eqb a c).
Qed.

Lemma path_join_slash root f :
  root ≠ EmptyString → Py.contains Py.slash (path_join root f) = true.
Proof.
  intros Hr. unfold path_join.
  destruct (starts_with Py.slash f) eqn:Hf; [by apply starts_with_contains|].
  rewrite bool_decide_eq_false_2 by done. simpl.
  destruct (ends_with Py.slash root) eqn:He.
  - by apply contains_app_l, ends_with_contains.
  - by apply contains_app_r.
Qed.

Lemma split_two c s :
  Py.contains c s = true → (2 ≤ length (Py.split c s))%nat.
Proof.
  induction s as [|a r IH]; simpl; [done|].
  destruct (Ascii.eqb a c) eqn:Ha.
  - intros _. simpl. pose proof (split_not_nil c r).
    destruct (Py.split c r); [done|simpl; lia].
  - intros H. specialize (IH H). destruct (Py.split c r); simpl in *; lia.
Qed.

Lemma last_n_length {A : Type} (n : nat) (l : list A) :
  length (last_n n l) = Nat.min n (length l).
Proof. unfold last_n. rewrite length_skipn. lia. Qed.

Lemma last_last_n {A : Type} (n : nat) (l : list A) :
  (1 ≤ n)%nat → last (last_n n l) = last l.
Proof.
  intros Hn. unfold last_n.
  destruct (decide (length l = 0%nat)) as [H0|H0].
  - by destruct l.
  - assert (last l = last (take (length l - n) l ++ drop (length l - n) l)) as ->
      by (by rewrite take_drop).
    rewrite last_app. destruct (last (drop (length l - n) l)) eqn:E; [done|].
    apply last_None in E. apply (f_equal length) in E.
    rewrite length_drop in E. simpl in E. lia.
Qed.

Lemma last_n_app {A : Type} (l r : list A) : last_n (length r) (l ++ r) = r.
Proof.
  unfold last_n. rewrite length_app.
  replace (length l + length r - length r)%nat with (length l) by lia.
  apply drop_app_length.
Qed.

Lemma xml_path_join stem :
  path_join XML_ROOT (("10.2307_" +:+ stem) +:+ ".xml") =
    XML_ROOT +:+ "10.2307_" +:+ stem +:+ ".xml".
Proof. reflexivity. Qed.

(** The run of [article_of_path] on a path with at least two parts. *)
Lemma article_of_path_run file_exists path journal issueid rest name stem :
  last_n 4 (Py.split Py.slash path) = journal :: issueid :: rest →
  last (Py.split Py.slash path) = Some name →
  head (Py.split dot name) = Some stem →
  let md := py_dict [ ("pdf_path", path); ("journal", journal);
                      ("issueid", issueid);
                      ("articleid", "10.2307_" +:+ stem) ] in
  let xml_path := XML_ROOT +:+ "10.2307_" +:+ stem +:+ ".xml" in
  article_of_path file_exists path =
    OK (if file_exists xml_path then <["xml_path" := xml_path]> md else md).
Proof.
  intros Hd Hn Hs. unfold article_of_path. rewrite Hd. simpl.
  unfold index_last. rewrite <- Hd, last_last_n, Hn by lia. simpl.
  unfold index_at. rewrite <- head_lookup, Hs. simpl.
  unfold getitem, py_dict. simpl. rewrite lookup_insert_eq. simpl.
  rewrite xml_path_join. by destruct (file_exists _).
Qed.

(** X17.  [article_of_path] raises (an [IndexError]) exactly on a path
    without a ['/']; so the iterator raises on no file when none of the
    walked directories is the empty string. *)
Theorem pdf_iterator_returns file_exists :
  (∀ path, returns (article_of_path file_exists path) =
           Py.contains Py.slash path) ∧
  (∀ walk,
     Forall (λ step : string * list string * list string,
               step.1.1 ≠ EmptyString) walk →
     Forall (λ r, returns r = true) (pdf_iterator file_exists walk)).
Proof.
  assert (∀ path, returns (article_of_path file_exists path) =
                  Py.contains Py.slash path) as Hret.
  { intros path. destruct (Py.contains Py.slash path) eqn:Hc.
    - pose proof (split_two _ _ Hc) as Hlen.
      pose proof (last_n_length 4 (Py.split Py.slash path)) as Hl4.
      destruct (last_n 4 (Py.split Py.slash path)) as [|j [|i rest]] eqn:Hd;
        cbn [length] in Hl4; try lia.
      destruct (last (Py.split Py.slash path)) as [name|] eqn:Hn.
      2:{ apply last_None in Hn. by apply split_not_nil in Hn. }
      destruct (head (Py.split dot name)) as [stem|] eqn:Hs.
      2:{ apply head_None in Hs. by apply split_not_nil in Hs. }
      rewrite (article_of_path_run _ _ _ _ _ _ _ Hd Hn Hs).
      by destruct (file_exists _).
    - unfold article_of_path. rewrite (split_whole _ _ Hc). done. }
  split; [done|]. intros walk Hw. unfold pdf_iterator.
  apply Forall_flat_map. intros [[root dirs] fs] Hin.
  apply Forall_forall. intros r Hr.
  apply list_elem_of_In, in_map_iff in Hr as (f & <- & _).
  rewrite Hret. apply path_join_slash.
  rewrite Forall_forall in Hw. exact (Hw _ Hin).
Qed.

(** X18.  The article built for a file: the PDF path is the file's path;
    the article id is ["10.2307_"] followed by the file name up to its
    first ['.'], a part without ['.'] or ['/']; and the XML path, the
    article id with [".xml"] under [XML_ROOT], is recorded exactly when
    that file exists, which is when the loop submits the article. *)
Theorem article_of_path_fields file_exists path md :
  article_of_path file_exists path = OK md →
  ∃ name stem,
    last (Py.split Py.slash path) = Some name ∧
    head (Py.split dot name) = Some stem ∧
    Py.contains dot stem = false ∧ Py.contains Py.slash stem = false ∧
    md !! "pdf_path" = Some path ∧
    md !! "articleid" = Some ("10.2307_" +:+ stem) ∧
    let xml_path := XML_ROOT +:+ "10.2307_" +:+ stem +:+ ".xml" in
    md !! "xml_path" = (if file_exists xml_path then Some xml_path else None) ∧
    lacks_xml md = negb (file_exists xml_path).
Proof.
  intros H.
  destruct (Py.contains Py.slash path) eqn:Hc.
  2:{ unfold article_of_path in H. by rewrite (split_whole _ _ Hc) in H. }
  pose proof (split_two _ _ Hc) as Hlen.
  pose proof (last_n_length 4 (Py.split Py.slash path)) as Hl4.
  destruct (last_n 4 (Py.split Py.slash path)) as [|j [|i rest]] eqn:Hd;
    cbn [length] in Hl4; try lia.
  destruct (last (Py.split Py.slash path)) as [name|] eqn:Hn.
  2:{ apply last_None in Hn. by apply split_not_nil in Hn. }
  destruct (head (Py.split dot name)) as [stem|] eqn:Hs.
  2:{ apply head_None in Hs. by apply split_not_nil in Hs. }
  rewrite (article_of_path_run _ _ _ _ _ _ _ Hd Hn Hs) in H.
  exists name, stem. split; [done|]. split; [done|].
  assert (Py.contains dot stem = false) as Hdot.
  { pose proof (split_parts dot name) as Hp.
    destruct (Py.split dot name) as [|x l]; [done|].
    simpl in Hs. injection Hs as ->. by apply Forall_cons in Hp as [? _]. }
  assert (Py.contains Py.slash name = false) as Hname.
  { pose proof (split_parts Py.slash path) as Hp.
    rewrite Forall_forall in Hp. apply Hp.
    rewrite last_Some in Hn. destruct Hn as [l' ->]. set_solver. }
  assert (Py.contains Py.slash stem = false) as Hslash.
  { destruct (Py.contains Py.slash stem) eqn:E; [|done].
    assert (∀ s, head (Py.split dot s) = Some stem →
                 Py.contains Py.slash s = true) as Hpre.
    { clear -E. intros s. revert stem E.
      induction s as [|a r IH]; simpl; intros stem E Hh.
      - injection Hh as <-. done.
      - destruct (Ascii.eqb a dot) eqn:Ha.
        + simpl in Hh. injection Hh as <-. done.
        + destruct (Py.split dot r) as [|h t] eqn:Er; simpl in Hh;
            injection Hh as <-; simpl in E.
          * destruct (Ascii.eqb a Py.slash); [done|done].
          * destruct (Ascii.eqb a Py.slash); [done|]. by apply (IH h). }
    rewrite (Hpre _ Hs) in Hname. done. }
  split; [done|]. split; [done|].
  injection H as <-. simpl. unfold lacks_xml.
  destruct (file_exists _); unfold py_dict; simpl; by lookup_lit.
Qed.

(** X19.  Under the layout [.../journal/issue/folder/file]: the journal
    and the issue id of the article are the third and the second
    directory above the file, whatever lies above them. *)
Theorem article_of_path_layout file_exists above journal issue folder file md :
  Py.contains Py.slash journal = false →
  Py.contains Py.slash issue = false →
  Py.contains Py.slash folder = false →
  Py.contains Py.slash file = false →
  article_of_path file_exists
    (above +:+ "/" +:+ journal +:+ "/" +:+ issue +:+ "/" +:+ folder +:+ "/" +:+ file)
    = OK md →
  md !! "journal" = Some journal ∧ md !! "issueid" = Some issue.
Proof.
  intros Hj Hi Hfo Hf H.
  assert (Py.split Py.slash
            (above +:+ "/" +:+ journal +:+ "/" +:+ issue +:+ "/" +:+ folder
             +:+ "/" +:+ file) =
          (Py.split Py.slash above ++ [journal; issue; folder; file])%list) as Hsp.
  { assert (∀ a b, Py.split Py.slash (a +:+ "/" +:+ b) =
                   (Py.split Py.slash a ++ Py.split Py.slash b)%list) as Happ
      by (intros a b; apply (split_app Py.slash a b)).
    rewrite !Happ.
    by rewrite (split_whole _ _ Hj), (split_whole _ _ Hi),
               (split_whole _ _ Hfo), (split_whole _ _ Hf). }
  assert (last_n 4 (Py.split Py.slash above ++ [journal; issue; folder; file]) =
          [journal; issue; folder; file]) as Hd
    by apply (last_n_app _ [journal; issue; folder; file]).
  rewrite <- Hsp in Hd.
  assert (last (Py.split Py.slash
                  (above +:+ "/" +:+ journal +:+ "/" +:+ issue +:+ "/" +:+ folder
                   +:+ "/" +:+ file)) = Some file) as Hn.
  { rewrite Hsp. by rewrite last_app. }
  destruct (head (Py.split dot file)) as [stem|] eqn:Hs.
  2:{ apply head_None in Hs. by apply split_not_nil in Hs. }
  rewrite (article_of_path_run _ _ _ _ _ _ _ Hd Hn Hs) in H.
  injection H as <-.
  destruct (file_exists _); unfold py_dict; simpl; by lookup_lit.
Qed.

(** ** One unit of work *)

Section UploadProperties.

Variable render : gmap string pval → string.
Variable read_xml : string → result element.
Variable item_upload : upload_call → result string.

Lemma make_ia_metadata_identifier_key file_md xml_md md :
  make_ia_metadata render file_md xml_md = OK md →
  ∃ id,
    xml_md !! "id" = Some (XStr id) ∧
    md !! "identifier" =
      Some (PStr ("jstor-" +:+ Py.last_part (Py.split Py.slash id))).
Proof.
  intros H. apply make_ia_metadata_kept in H as (md0 & H0 & Hk).
  apply initial_md_OK in H0 as (id & ja & Hid & _ & ->).
  exists id. rewrite Hk by done. unfold py_dict; simpl.
  split; [done|]. by lookup_lit.
Qed.

(** The call [upload_article] prepares, when every step before the
    upload returns. *)
Lemma upload_article_prepared article calls xml_path pdf_path root xml_md metadata :
  article !! "xml_path" = Some xml_path →
  article !! "pdf_path" = Some pdf_path →
  read_xml xml_path = OK root →
  parse_article_xml root = OK xml_md →
  make_ia_metadata render article xml_md = OK metadata →
  ∃ id,
    xml_md !! "id" = Some (XStr id) ∧
    let identifier := PStr ("jstor-" +:+ Py.last_part (Py.split Py.slash id)) in
    let call := UploadCall identifier [pdf_path; xml_path] metadata true false in
    upload_article render read_xml item_upload article calls =
      (do upload_status <- item_upload call; OK (identifier, upload_status),
       (calls ++ [call])%list).
Proof.
  intros Hx Hp Hr Hparse Hm.
  destruct (make_ia_metadata_identifier_key _ _ _ Hm) as (id & Hid & Hident).
  exists id. split; [done|].
  unfold upload_article, parse_article_xml_file, getitem.
  rewrite Hx, Hp. simpl. rewrite Hr. simpl. rewrite Hparse. simpl.
  rewrite Hm. simpl. by rewrite Hident.
Qed.

Lemma upload_article_cases article calls :
  (upload_article render read_xml item_upload article calls).2 = calls ∧
  raises (upload_article render read_xml item_upload article calls).1 ∨
  ∃ xml_path pdf_path root xml_md metadata,
    article !! "xml_path" = Some xml_path ∧
    article !! "pdf_path" = Some pdf_path ∧
    read_xml xml_path = OK root ∧
    parse_article_xml root = OK xml_md ∧
    make_ia_metadata render article xml_md = OK metadata.
Proof.
  unfold upload_article, parse_article_xml_file, getitem.
  destruct (article !! "xml_path") as [xml_path|]; simpl;
    [|left; split; [done|by eexists]].
  destruct (read_xml xml_path) as [root|] eqn:Hr; simpl;
    [|left; split; [done|by eexists]].
  destruct (parse_article_xml root) as [xml_md|] eqn:Hparse; simpl;
    [|left; split; [done|by eexists]].
  destruct (make_ia_metadata render article xml_md) as [metadata|] eqn:Hm; simpl;
    [|left; split; [done|by eexists]].
  destruct (article !! "pdf_path") as [pdf_path|]; simpl;
    [|left; split; [done|by eexists]].
  right. by exists xml_path, pdf_path, root, xml_md, metadata.
Qed.

(** X20.  [upload_article] uploads only what it synthesized: either a
    step before the upload raises and no upload call is made, or the
    article has both paths, its XML file parses and synthesizes, and
    exactly one call is made, for the item ["jstor-"] plus the last part
    of the record id, with the files [pdf, xml], the synthesized metadata,
    [derive=True] and [ignore_bucket=False]; the identifier returned is
    that item's. *)
Theorem upload_article_call article calls :
  let done := upload_article render read_xml item_upload article calls in
  (done.2 = calls ∧ raises done.1) ∨
  (∃ xml_path pdf_path root xml_md metadata id,
     article !! "xml_path" = Some xml_path ∧
     article !! "pdf_path" = Some pdf_path ∧
     read_xml xml_path = OK root ∧
     parse_article_xml root = OK xml_md ∧
     make_ia_metadata render article xml_md = OK metadata ∧
     xml_md !! "id" = Some (XStr id) ∧
     let identifier := PStr ("jstor-" +:+ Py.last_part (Py.split Py.slash id)) in
     let call := UploadCall identifier [pdf_path; xml_path] metadata true false in
     done.2 = (calls ++ [call])%list ∧
     done.1 = (do upload_status <- item_upload call; OK (identifier, upload_status))).
Proof.
  simpl. destruct (upload_article_cases article calls)
    as [?|(xml_path & pdf_path & root & xml_md & metadata & Hx & Hp & Hr & Hparse & Hm)];
    [by left|right].
  destruct (upload_article_prepared article calls _ _ _ _ _ Hx Hp Hr Hparse Hm)
    as (id & Hid & Heq).
  exists xml_path, pdf_path, root, xml_md, metadata, id.
  simpl in Heq. rewrite Heq. by repeat split.
Qed.

(** X21.  A record that synthesizes is always uploaded: when the
    article has both paths and its XML file parses and synthesizes, the
    lookup of the identifier in the metadata never fails, and the upload
    call is made. *)
Theorem upload_article_uploads article calls xml_path pdf_path root xml_md metadata :
  article !! "xml_path" = Some xml_path →
  article !! "pdf_path" = Some pdf_path →
  read_xml xml_path = OK root →
  parse_article_xml root = OK xml_md →
  make_ia_metadata render article xml_md = OK metadata →
  ∃ call,
    (upload_article render read_xml item_upload article calls).2 =
      (calls ++ [call])%list ∧
    files call = [pdf_path; xml_path] ∧
    upload_metadata call = metadata ∧
    item_identifier call = default PNone (metadata !! "identifier") ∧
    derive call = true ∧ ignore_bucket call = false.
Proof.
  intros Hx Hp Hr Hparse Hm.
  destruct (upload_article_prepared article calls _ _ _ _ _ Hx Hp Hr Hparse Hm)
    as (id & Hid & Heq).
  destruct (make_ia_metadata_identifier_key _ _ _ Hm) as (id' & Hid' & Hident).
  rewrite Hid in Hid'. injection Hid' as <-.
  simpl in Heq. rewrite Heq. eexists. split; [done|]. simpl.
  by rewrite Hident.
Qed.

(** X22.  What is reported: the callback prints one line,
    ["Uploaded:"], a tab and the item identifier, for a unit that
    returned; for a unit that raised it prints nothing and raises the
    same exception. *)
Theorem upload_status_reports article calls printed :
  let done := upload_article render read_xml item_upload article calls in
  let report := upload_status done.1 printed in
  (∀ e, done.1 = Raise e → report = (Raise e, printed)) ∧
  (∀ identifier status, done.1 = OK (identifier, status) →
     ∃ xml_path root xml_md id,
       article !! "xml_path" = Some xml_path ∧
       read_xml xml_path = OK root ∧
       parse_article_xml root = OK xml_md ∧
       xml_md !! "id" = Some (XStr id) ∧
       report =
         (OK tt,
          (printed ++ ["Uploaded:" +:+ tab +:+ "jstor-" +:+
                       Py.last_part (Py.split Py.slash id)])%list)).
Proof.
  simpl. split.
  - intros e ->. done.
  - intros identifier status Hd.
    destruct (upload_article_cases article calls)
      as [[_ [e He]]|(xml_path & pdf_path & root & xml_md & metadata
                      & Hx & Hp & Hr & Hparse & Hm)];
      [congruence|].
    destruct (upload_article_prepared article calls _ _ _ _ _ Hx Hp Hr Hparse Hm)
      as (id & Hid & Heq).
    exists xml_path, root, xml_md, id. repeat split; try done.
    simpl in Heq. rewrite Heq in Hd |- *. simpl in Hd |- *.
    destruct (item_upload _); simpl in Hd |- *; [|done].
    by injection Hd as <- <-.
Qed.

End UploadProperties.

(** ** The further properties at the sample inputs *)

Lemma parse_article_xml_grandchild_without_text_witness :
  raises (parse_article_xml Cases.empty_surname).
Proof.
  apply (parse_article_xml_grandchild_without_text Cases.empty_surname
           (Element "authors" None
              [ Element "author" None [ Element "surname" None [] ] ])
           (Element "author" None [ Element "surname" None [] ])
           (Element "surname" None []));
    try reflexivity; try discriminate; apply list_elem_of_here.
Defined.

Lemma parse_article_xml_trimmed_witness :
  trimmed_value (XStr "On Coal") ∧
  trimmed_value (XList [ IDict "surname" "Smith"; IDict "givennames" "John" ]).
Proof.
  assert (F : returns (parse_article_xml Sample.doc) = true)
    by (vm_compute; reflexivity).
  assert (Ht : field (parse_article_xml Sample.doc) "title" =
               OK (Some (XStr "On Coal"))) by (vm_compute; reflexivity).
  assert (Ha : field (parse_article_xml Sample.doc) "authors" =
               OK (Some (XList [ IDict "surname" "Smith";
                                 IDict "givennames" "John" ])))
    by (vm_compute; reflexivity).
  destruct (parse_article_xml Sample.doc) as [md|] eqn:E; [|discriminate F].
  unfold field in Ht, Ha. simpl in Ht, Ha.
  injection Ht as Ht. injection Ha as Ha. split.
  - exact (parse_article_xml_trimmed Sample.doc md "title" _ E Ht).
  - exact (parse_article_xml_trimmed Sample.doc md "authors" _ E Ha).
Defined.

Lemma make_ia_metadata_identifier_witness :
  field (make_ia_metadata Sample.template ∅ Sample.range) "identifier" =
    OK (Some (PStr "jstor-123")) ∧
  field (make_ia_metadata Sample.template ∅ Sample.range) "source" =
    OK (Some (PStr "http://www.jstor.org/stable/10.2307/123")).
Proof.
  split; run md E;
    destruct (make_ia_metadata_identifier Sample.template ∅ Sample.range md E)
      as (id & Hid & Hident & _ & _ & _ & _ & Hsrc);
    vm_compute in Hid; injection Hid as <-.
  - rewrite Hident. vm_compute. reflexivity.
  - rewrite Hsrc. reflexivity.
Defined.

Lemma make_ia_metadata_copied_fields_witness :
  field (make_ia_metadata Sample.template ∅ Sample.range) "publisher" =
    OK (Some (PStr "Acme Journal")) ∧
  field (make_ia_metadata Sample.template ∅ Sample.range) "date" =
    OK (Some (PStr "1920")) ∧
  field (make_ia_metadata Sample.template ∅ Sample.range) "volume" = OK None.
Proof.
  split; [|split]; run md E;
    destruct (make_ia_metadata_copied_fields Sample.template ∅ Sample.range md E)
      as (Hp & _ & Hd & _ & Hv & _).
  - rewrite Hp. vm_compute. reflexivity.
  - rewrite Hd. vm_compute. reflexivity.
  - rewrite Hv. vm_compute. reflexivity.
Defined.

Lemma make_ia_metadata_language_witness :
  field (make_ia_metadata Sample.template ∅ Cases.with_languages) "language" =
    OK (Some (PStr "eng")) ∧
  field (make_ia_metadata Sample.template ∅ Sample.range) "language" = OK None.
Proof.
  split; run md E.
  - destruct (make_ia_metadata_language Sample.template ∅ Cases.with_languages)
      as [H _].
    destruct (H md E) as (_ & Hl & _).
    rewrite (Hl "eng" [IStr "fre"]); vm_compute; reflexivity.
  - destruct (make_ia_metadata_language Sample.template ∅ Sample.range) as [H _].
    destruct (H md E) as (Hn & _).
    rewrite Hn; [reflexivity|vm_compute; reflexivity].
Defined.

Lemma make_ia_metadata_description_witness :
  trimmed "<p>[untitled] Acme Journal, (1920), pages 5-9</p>" ∧
  Py.contains Py.newline "<p>[untitled] Acme Journal, (1920), pages 5-9</p>" = false.
Proof.
  assert (Hd : field (make_ia_metadata Sample.template ∅ Sample.range) "description" =
               OK (Some (PStr "<p>[untitled] Acme Journal, (1920), pages 5-9</p>")))
    by (vm_compute; reflexivity).
  assert (F : returns (make_ia_metadata Sample.template ∅ Sample.range) = true)
    by (vm_compute; reflexivity).
  destruct (make_ia_metadata Sample.template ∅ Sample.range) as [md|] eqn:E;
    [|discriminate F].
  unfold field in Hd. simpl in Hd. injection Hd as Hd.
  destruct (make_ia_metadata_description Sample.template ∅ Sample.range md _ E Hd)
    as (d & Heq & _ & Ht & Hn).
  injection Heq as <-. by split.
Defined.

Lemma make_ia_metadata_authors_text_witness :
  raises (make_ia_metadata Sample.template ∅ Cases.text_author).
Proof.
  apply make_ia_metadata_authors_text. right.
  exists [IStr "John Smith"], "John Smith". split; [vm_compute; reflexivity|].
  apply list_elem_of_here.
Defined.

Lemma make_ia_metadata_pagerange_list_witness :
  raises (make_ia_metadata Sample.template ∅ Cases.list_pagerange).
Proof.
  apply (make_ia_metadata_pagerange_list Sample.template ∅ Cases.list_pagerange
           (IStr "5") []).
  vm_compute. reflexivity.
Defined.


Lemma make_ia_metadata_last_author_witness :
  field (make_ia_metadata Sample.template ∅ Cases.two_authors) "creator" =
    OK (Some (PStr "Jones, Mary")).
Proof.
  run md E.
  rewrite (make_ia_metadata_last_author Sample.template ∅ Cases.two_authors md
             [IDict "surname" "Smith"; IDict "givennames" "John"] "Jones" "Mary");
    [vm_compute; reflexivity|vm_compute; reflexivity|exact E].
Defined.

Lemma modify_ia_metadata_string_overlay_witness :
  let call :=
    modify_ia_metadata Sample.dumps Sample.content "jstor-123" Sample.title_y
      "metadata" (Sample.serving Sample.title_x) in
  returns call.1 = true ∧
  ∃ params cookies,
    sent call.2 =
      [ Get "http://archive.org/metadata/jstor-123";
        Patch "http://archive.org/metadata/jstor-123" params cookies ].
Proof.
  cbv zeta.
  destruct (modify_ia_metadata_string_overlay Sample.dumps Sample.content
              "jstor-123" Sample.title_y "metadata"
              (Sample.serving Sample.title_x) "sig" "user")
    as (Hret & _ & _ & Hsent).
  - vm_compute. reflexivity.
  - vm_compute. reflexivity.
  - intros k v Hk. unfold Sample.title_y in Hk.
    apply lookup_singleton_Some in Hk as [_ <-]. by exists "Y".
  - split; [exact Hret|]. apply Hsent.
    intros Hsub. rewrite map_subseteq_spec in Hsub.
    specialize (Hsub "title" (JStr "Y") ltac:(vm_compute; reflexivity)).
    vm_compute in Hsub. discriminate Hsub.
Defined.

Lemma submission_loop_iterator_interrupt_stops_witness :
  submission_loop
    [ (Sample.pdf "1", NoInterrupt); (Sample.pdf "2", InIterator);
      (Sample.pdf "3", NoInterrupt) ]
    (Pool [] []) =
  (Pool [UnitOfWork (Sample.pdf "1") true] [], Some KeyboardInterrupt).
Proof.
  assert (Forall (λ round : gmap string string * interrupt, round.2 ≠ InIterator)
            [(Sample.pdf "1", NoInterrupt)]) as Hb
    by (repeat constructor; discriminate).
  exact (submission_loop_iterator_interrupt_stops
           [(Sample.pdf "1", NoInterrupt)] (Sample.pdf "2")
           [(Sample.pdf "3", NoInterrupt)] (Pool [] []) Hb).
Defined.

Lemma article_of_path_fields_witness :
  field (article_of_path Cases.on_disk Cases.pdf_path) "articleid" =
    OK (Some "10.2307_1234") ∧
  field (article_of_path Cases.on_disk Cases.pdf_path) "xml_path" =
    OK (Some Cases.xml_path) ∧
  field (article_of_path (λ _, false) Cases.pdf_path) "xml_path" = OK None.
Proof.
  split; [|split].
  - assert (F : returns (article_of_path Cases.on_disk Cases.pdf_path) = true)
      by (vm_compute; reflexivity).
    destruct (article_of_path Cases.on_disk Cases.pdf_path) as [md|] eqn:E;
      [|discriminate F].
    destruct (article_of_path_fields _ _ _ E)
      as (name & stem & Hn & Hs & _ & _ & _ & Ha & _).
    vm_compute in Hn. injection Hn as <-. vm_compute in Hs. injection Hs as <-.
    unfold field. simpl. by rewrite Ha.
  - assert (F : returns (article_of_path Cases.on_disk Cases.pdf_path) = true)
      by (vm_compute; reflexivity).
    destruct (article_of_path Cases.on_disk Cases.pdf_path) as [md|] eqn:E;
      [|discriminate F].
    destruct (article_of_path_fields _ _ _ E)
      as (name & stem & Hn & Hs & _ & _ & _ & _ & Hx & _).
    vm_compute in Hn. injection Hn as <-. vm_compute in Hs. injection Hs as <-.
    unfold field. simpl. rewrite Hx. vm_compute. reflexivity.
  - assert (F : returns (article_of_path (λ _, false) Cases.pdf_path) = true)
      by (vm_compute; reflexivity).
    destruct (article_of_path (λ _, false) Cases.pdf_path) as [md|] eqn:E;
      [|discriminate F].
    destruct (article_of_path_fields _ _ _ E)
      as (name & stem & Hn & Hs & _ & _ & _ & _ & Hx & _).
    unfold field. simpl. by rewrite Hx.
Defined.

Lemma article_of_path_layout_witness :
  field (article_of_path Cases.on_disk Cases.pdf_path) "journal" = OK (Some "acmej") ∧
  field (article_of_path Cases.on_disk Cases.pdf_path) "issueid" = OK (Some "i200").
Proof.
  assert (F : returns (article_of_path Cases.on_disk Cases.pdf_path) = true)
    by (vm_compute; reflexivity).
  destruct (article_of_path Cases.on_disk Cases.pdf_path) as [md|] eqn:E;
    [|discriminate F].
  destruct (article_of_path_layout Cases.on_disk
              "/2/data/jstor/ejc/jstor-early-journal-content"
              "acmej" "i200" "00" "1234.pdf" md) as [Hj Hi];
    try reflexivity; [exact E|].
  unfold field. simpl. by rewrite Hj, Hi.
Defined.

Lemma upload_article_uploads_witness :
  files <$> (upload_article Sample.template Cases.read_xml Cases.item_upload
               Cases.article []).2 =
    [[Cases.pdf_path; Cases.xml_path]] ∧
  item_identifier <$> (upload_article Sample.template Cases.read_xml
                         Cases.item_upload Cases.article []).2 =
    [PStr "jstor-1234"].
Proof.
  assert (Fp : returns (parse_article_xml Cases.record) = true)
    by (vm_compute; reflexivity).
  assert (Fm : returns (do x <- parse_article_xml Cases.record;
                        make_ia_metadata Sample.template Cases.article x) = true)
    by (vm_compute; reflexivity).
  assert (Fi : (do x <- parse_article_xml Cases.record;
                field (make_ia_metadata Sample.template Cases.article x)
                  "identifier")
               = OK (Some (PStr "jstor-1234")))
    by (vm_compute; reflexivity).
  destruct (parse_article_xml Cases.record) as [xml_md|] eqn:Ep; [|discriminate Fp].
  cbv beta iota delta [rbind] in Fm, Fi.
  destruct (make_ia_metadata Sample.template Cases.article xml_md) as [metadata|] eqn:Em;
    [|discriminate Fm].
  cbv beta iota delta [field rbind] in Fi. injection Fi as Fi.
  destruct (upload_article_uploads Sample.template Cases.read_xml Cases.item_upload
              Cases.article [] Cases.xml_path Cases.pdf_path Cases.record
              xml_md metadata) as (call & Hc & Hf & _ & Hi & _);
    [vm_compute; reflexivity|vm_compute; reflexivity|vm_compute; reflexivity
    |exact Ep|exact Em|].
  rewrite Hc. cbn [app fmap list_fmap]. rewrite Hf, Hi, Fi.
  split; reflexivity.
Defined.
